(** * Hushgram: the user directory, presence queries and cascading deletion

    A shallow embedding of the backend module [users] (the functions
    [_deleteUserAndData], [logoutUser], [cleanupOfflineUsers], [createUser],
    [getCurrentUser], [getOnlineUsers], [updateOnlineStatus]) over an explicit
    model of the document store the handlers talk to through [ctx.db] and
    [ctx.scheduler]. *)

From Stdlib Require Import List ZArith String Bool Arith Lia.
From Stdlib Require SpecFloat.
Import ListNotations.

Set Implicit Arguments.

(** ** Documents *)

(** A document id ([Id<"table">]).  Ids are opaque to the handlers: they only
    compare them and hand them back to the store. *)
Definition Id := nat.

(** Milliseconds since the epoch, as [Date.now()] returns them. *)
Definition Millis := Z.

(** ** Numbers *)

(** A JavaScript number is an IEEE 754 double: 53 bits of precision, the
    exponents of binary64, signed zeros, two infinities and NaN. *)
Definition JsNumber := SpecFloat.spec_float.

Definition NaN : JsNumber := SpecFloat.S754_nan.

(** The value of an integer literal such as [0] or [1], and of any integer
    taken as a number: the nearest double, ties going to the even one. *)
Definition js_number (z : Z) : JsNumber := SpecFloat.binary_normalize 53 1024 z 0 false.

(** [x - y] *)
Definition minus (x y : JsNumber) : JsNumber := SpecFloat.SFsub 53 1024 x y.

Definition isNaN (x : JsNumber) : bool :=
  match x with
  | SpecFloat.S754_nan => true
  | _ => false
  end.

Definition is_plus_zero (x : JsNumber) : bool :=
  match x with
  | SpecFloat.S754_zero false => true
  | _ => false
  end.

Definition is_minus_zero (x : JsNumber) : bool :=
  match x with
  | SpecFloat.S754_zero true => true
  | _ => false
  end.

(** [Math.max(...values)]: NaN when one of the values is NaN; otherwise the
    values are gone through from [-Infinity], [+0] counting as larger than
    [-0]. *)
Definition Math_max (values : list JsNumber) : JsNumber :=
  if existsb isNaN values then NaN
  else fold_left
         (fun highest value =>
            if is_plus_zero value && is_minus_zero highest then value
            else if SpecFloat.SFltb highest value then value
            else highest)
         values (SpecFloat.S754_infinity true).

Record User := mkUser {
  user_id   : Id;
  username  : string;
  sessionId : string;
  isOnline  : bool;
  lastSeen  : Millis
}.

(** Modelled from the spec: the schema file is not among the sources, so the
    tables other than [users] carry the attributes of the spec's data model
    (section 3) next to the fields the handlers read ([_id], [senderId],
    [userId], [groupId], [memberCount]). *)
Record Message := mkMessage {
  message_id  : Id;
  senderId    : Id;
  recipientId : option Id;
  toGroupId   : option Id;
  content     : string;
  seen        : bool
}.

Record GroupMember := mkGroupMember {
  member_id      : Id;
  member_userId  : Id;
  member_groupId : Id
}.

(** [memberCount] is a number: the handler subtracts from it and hands it
    to [Math.max]. *)
Record Group := mkGroup {
  group_id    : Id;
  name        : string;
  memberCount : JsNumber
}.

Record ActiveChat := mkActiveChat {
  chat_id     : Id;
  chat_userId : Id;
  chatRef     : string
}.

Record TypingIndicator := mkTypingIndicator {
  typing_id     : Id;
  typing_userId : Id;
  chatId        : string;
  isTyping      : bool
}.

(** Every document has the system field [_id]. *)
Class Doc (D : Type) := _id : D -> Id.

#[export] Instance User_Doc : Doc User := user_id.
#[export] Instance Message_Doc : Doc Message := message_id.
#[export] Instance GroupMember_Doc : Doc GroupMember := member_id.
#[export] Instance Group_Doc : Doc Group := group_id.
#[export] Instance ActiveChat_Doc : Doc ActiveChat := chat_id.
#[export] Instance TypingIndicator_Doc : Doc TypingIndicator := typing_id.

(** The rows that belong to a user carry a [userId] field. *)
Class Owned (D : Type) := userId : D -> Id.

#[export] Instance GroupMember_Owned : Owned GroupMember := member_userId.
#[export] Instance ActiveChat_Owned : Owned ActiveChat := chat_userId.
#[export] Instance TypingIndicator_Owned : Owned TypingIndicator := typing_userId.

(** ** The store *)

(** A function scheduled with [ctx.scheduler.runAfter]. *)
Inductive FunctionRef :=
| internal_users__deleteUserAndData (userId : Id).

Record Job := mkJob {
  delayMs : Z;
  target  : FunctionRef
}.

(** A table is the list of its documents in creation order, which is the
    order in which a query without an explicit order, or an equality lookup on
    an index, yields them. *)
Record Db := mkDb {
  users            : list User;
  messages         : list Message;
  groupMembers     : list GroupMember;
  groups           : list Group;
  activeChats      : list ActiveChat;
  typingIndicators : list TypingIndicator;
  scheduled        : list Job;
  nextId           : Id
}.

(** A handle on one table of the store. *)
Record Table (D : Type) := mkTable {
  rows     : Db -> list D;
  set_rows : list D -> Db -> Db
}.

Definition usersT : Table User :=
  mkTable users (fun l db =>
    mkDb l (messages db) (groupMembers db) (groups db) (activeChats db)
         (typingIndicators db) (scheduled db) (nextId db)).

Definition messagesT : Table Message :=
  mkTable messages (fun l db =>
    mkDb (users db) l (groupMembers db) (groups db) (activeChats db)
         (typingIndicators db) (scheduled db) (nextId db)).

Definition groupMembersT : Table GroupMember :=
  mkTable groupMembers (fun l db =>
    mkDb (users db) (messages db) l (groups db) (activeChats db)
         (typingIndicators db) (scheduled db) (nextId db)).

Definition groupsT : Table Group :=
  mkTable groups (fun l db =>
    mkDb (users db) (messages db) (groupMembers db) l (activeChats db)
         (typingIndicators db) (scheduled db) (nextId db)).

Definition activeChatsT : Table ActiveChat :=
  mkTable activeChats (fun l db =>
    mkDb (users db) (messages db) (groupMembers db) (groups db) l
         (typingIndicators db) (scheduled db) (nextId db)).

Definition typingIndicatorsT : Table TypingIndicator :=
  mkTable typingIndicators (fun l db =>
    mkDb (users db) (messages db) (groupMembers db) (groups db)
         (activeChats db) l (scheduled db) (nextId db)).

(** ** Handlers: state and exceptions *)

Inductive Result (A : Type) :=
| Ok (a : A)
| Err (msg : string).

Arguments Err {A} msg.

(** A handler step reads and writes the store and may throw.  The store is
    returned in both cases: on [Err] it is the store as it stood when the
    exception was raised. *)
Definition M (A : Type) := Db -> Result A * Db.

Definition ret {A} (a : A) : M A := fun db => (Ok a, db).

Definition throw {A} (msg : string) : M A := fun db => (Err msg, db).

Definition bind {A B} (m : M A) (k : A -> M B) : M B :=
  fun db =>
    match m db with
    | (Ok a, db') => k a db'
    | (Err e, db') => (Err e, db')
    end.

Declare Scope handler_scope.
Delimit Scope handler_scope with handler.
Notation "x <- m ;; k" := (bind m (fun x => k))
  (at level 61, m at next level, right associativity) : handler_scope.
Notation "m ;; k" := (bind m (fun _ => k))
  (at level 61, right associativity) : handler_scope.
Open Scope handler_scope.

(** The operations of a list of promises that were all started before any of
    them was awaited reach the store in the order in which they were started.
    The first operation the store rejects rejects the whole; what the later
    ones would have done is left out, since a mutation that throws keeps none
    of its writes. *)
Fixpoint Promise_all (ps : list (M unit)) : M unit :=
  match ps with
  | [] => ret tt
  | p :: ps' => p ;; Promise_all ps'
  end.

(** The same for promises that carry a value. *)
Fixpoint Promise_all_values {A} (ps : list (M A)) : M (list A) :=
  match ps with
  | [] => ret []
  | p :: ps' => a <- p ;; rest <- Promise_all_values ps' ;; ret (a :: rest)
  end.

(** A mutation runs as one transaction: when its handler throws, none of its
    writes is kept. *)
Definition mutation {A} (handler : M A) : M A :=
  fun db =>
    match handler db with
    | (Ok a, db') => (Ok a, db')
    | (Err e, _) => (Err e, db)
    end.

Definition internalMutation {A} (handler : M A) : M A := mutation handler.

(** ** [ctx.db] *)

Section Store.
Context {D : Type} `{Doc D}.

Definition has_id (i : Id) (d : D) : bool := Nat.eqb (_id d) i.

(** [ctx.db.query(table) ... .filter(p).collect()], and the same through an
    index equality [withIndex(ix, q => q.eq(field, v))]. *)
Definition db_collect (T : Table D) (p : D -> bool) : M (list D) :=
  fun db => (Ok (filter p (rows T db)), db).

(** [... .first()] *)
Definition db_first (T : Table D) (p : D -> bool) : M (option D) :=
  fun db => (Ok (find p (rows T db)), db).

(** [ctx.db.get(id)] *)
Definition db_get (T : Table D) (i : Id) : M (option D) :=
  fun db => (Ok (find (has_id i) (rows T db)), db).

(** [ctx.db.delete(id)]: the store deletes an existing document and rejects
    an id that has no document. *)
Definition db_delete (T : Table D) (i : Id) : M unit :=
  fun db =>
    if existsb (has_id i) (rows T db)
    then (Ok tt, set_rows T (filter (fun d => negb (has_id i d)) (rows T db)) db)
    else (Err "Delete on nonexistent document ID", db).

(** [ctx.db.patch(id, fields)]: [upd] overwrites the given fields; the store
    rejects an id that has no document. *)
Definition db_patch (T : Table D) (i : Id) (upd : D -> D) : M unit :=
  fun db =>
    if existsb (has_id i) (rows T db)
    then (Ok tt, set_rows T (map (fun d => if has_id i d then upd d else d) (rows T db)) db)
    else (Err "Update on nonexistent document ID", db).
End Store.

(** [ctx.db.insert("users", fields)]: the store picks the id of the new
    document. *)
Definition db_insert_user (fields : Id -> User) : M Id :=
  fun db =>
    let i := nextId db in
    (Ok i,
     mkDb (users db ++ [fields i]) (messages db) (groupMembers db) (groups db)
          (activeChats db) (typingIndicators db) (scheduled db) (S i)).

(** [ctx.scheduler.runAfter(delay, fn, args)] *)
Definition scheduler_runAfter (delay : Z) (fn : FunctionRef) : M unit :=
  fun db =>
    (Ok tt,
     mkDb (users db) (messages db) (groupMembers db) (groups db)
          (activeChats db) (typingIndicators db)
          (scheduled db ++ [mkJob delay fn]) (nextId db)).

(** ** [_deleteUserAndData] *)

(** 1. Find and delete all messages sent by the user (private and group). *)
Definition deleteMessages (uid : Id) : M unit :=
  messagesToDelete <- db_collect messagesT (fun m => Nat.eqb (senderId m) uid) ;;
  Promise_all (map (fun message => db_delete messagesT (_id message)) messagesToDelete).

(** [{ memberCount: Math.max(0, group.memberCount - 1) }], computed from the
    document [group] that [ctx.db.get] returned. *)
Definition decremented (group : Group) (g : Group) : Group :=
  mkGroup (group_id g) (name g)
          (Math_max [js_number 0; minus (memberCount group) (js_number 1)]).

(** 2. The callback mapped over the memberships is an [async] function with
    three suspension points:
<<
      const group = await ctx.db.get(membership.groupId);
      if (group) { await ctx.db.patch(group._id, {...}); }
      await ctx.db.delete(membership._id);
>>
    [memberships.map] starts every callback before any of them resumes, so
    every [get] is issued first.  The callbacks then resume in order: one
    whose group was found issues its [patch], the others their [delete]; the
    callbacks that patched resume once more and issue their [delete]. *)
Definition membership_resume1 (membership : GroupMember) (group : option Group) : M unit :=
  match group with
  | Some group => db_patch groupsT (_id group) (decremented group)
  | None => db_delete groupMembersT (_id membership)
  end.

Definition membership_resume2 (membership : GroupMember) (group : option Group) : M unit :=
  match group with
  | Some _ => db_delete groupMembersT (_id membership)
  | None => ret tt
  end.

Definition deleteMemberships (uid : Id) : M unit :=
  memberships <- db_collect groupMembersT (fun m => Nat.eqb (userId m) uid) ;;
  found <- Promise_all_values
             (map (fun membership => db_get groupsT (member_groupId membership)) memberships) ;;
  Promise_all (map (fun c => membership_resume1 (fst c) (snd c)) (combine memberships found)) ;;
  Promise_all (map (fun c => membership_resume2 (fst c) (snd c)) (combine memberships found)).

(** 3. Delete the user's active chats and typing indicators. *)
Definition deleteActiveChats (uid : Id) : M unit :=
  activeChats <- db_collect activeChatsT (fun c => Nat.eqb (userId c) uid) ;;
  Promise_all (map (fun chat => db_delete activeChatsT (_id chat)) activeChats).

Definition deleteTypingIndicators (uid : Id) : M unit :=
  typingIndicators <- db_collect typingIndicatorsT (fun t => Nat.eqb (userId t) uid) ;;
  Promise_all (map (fun indicator => db_delete typingIndicatorsT (_id indicator)) typingIndicators).

(** Everything the handler does before it touches the user document. *)
Definition deleteOwnedData (uid : Id) : M unit :=
  deleteMessages uid ;;
  deleteMemberships uid ;;
  deleteActiveChats uid ;;
  deleteTypingIndicators uid.

(** 4. Finally, delete the user document itself. *)
Definition _deleteUserAndData_handler (uid : Id) : M unit :=
  deleteOwnedData uid ;;
  db_delete usersT uid.

Definition _deleteUserAndData (uid : Id) : M unit :=
  internalMutation (_deleteUserAndData_handler uid).

(** The callback of step 2 as it would run if each membership were handled
    to completion before the next one started. *)
Definition membership_in_turn (membership : GroupMember) : M unit :=
  group <- db_get groupsT (member_groupId membership) ;;
  match group with
  | Some group => db_patch groupsT (_id group) (decremented group)
  | None => ret tt
  end ;;
  db_delete groupMembersT (_id membership).

Definition deleteMemberships_in_turn (uid : Id) : M unit :=
  memberships <- db_collect groupMembersT (fun m => Nat.eqb (userId m) uid) ;;
  Promise_all (map membership_in_turn memberships).

(** ** [logoutUser], [cleanupOfflineUsers] *)

Definition logoutUser (uid : Id) : M unit :=
  mutation (scheduler_runAfter 0 (internal_users__deleteUserAndData uid)).

(** 5 minutes *)
Definition IDLE_THRESHOLD_MS : Z := 300000.

Definition cleanupOfflineUsers (now : Millis) : M unit :=
  internalMutation
    (let cutoffTime := (now - IDLE_THRESHOLD_MS)%Z in
     offlineUsers <- db_collect usersT (fun u => lastSeen u <? cutoffTime)%Z ;;
     Promise_all
       (map (fun user => scheduler_runAfter 0 (internal_users__deleteUserAndData (_id user)))
            offlineUsers)).

(** ** [createUser], [getCurrentUser], [getOnlineUsers], [updateOnlineStatus] *)

Definition createUser_handler (args_username args_sessionId : string) (now : Millis) : M Id :=
  existingUser <- db_first usersT
                    (fun u => String.eqb (username u) args_username && Bool.eqb (isOnline u) true) ;;
  match existingUser with
  | Some _ => throw "Username is already taken by an online user"
  | None =>
      existingSession <- db_first usersT (fun u => String.eqb (sessionId u) args_sessionId) ;;
      match existingSession with
      | Some existingSession =>
          db_patch usersT (_id existingSession)
            (fun u => mkUser (user_id u) args_username (sessionId u) true now) ;;
          ret (_id existingSession)
      | None =>
          db_insert_user (fun i => mkUser i args_username args_sessionId true now)
      end
  end.

Definition createUser (args_username args_sessionId : string) (now : Millis) : M Id :=
  mutation (createUser_handler args_username args_sessionId now).

(** A query only reads. *)
Definition getCurrentUser (args_sessionId : string) (db : Db) : option User :=
  find (fun u => String.eqb (sessionId u) args_sessionId) (users db).

(** 1 minute *)
Definition ONLINE_WINDOW_MS : Z := 60000.

(** The object [getOnlineUsers] returns for each user. *)
Record OnlineUser := mkOnlineUser {
  ou_id       : Id;
  ou_username : string;
  ou_isOnline : bool;
  ou_lastSeen : Millis
}.

Definition getOnlineUsers (now : Millis) (db : Db) : list OnlineUser :=
  let cutoffTime := (now - ONLINE_WINDOW_MS)%Z in
  let users :=
    filter (fun u => Bool.eqb (isOnline u) true && (lastSeen u >? cutoffTime)%Z) (users db) in
  map (fun user => mkOnlineUser (_id user) (username user) (isOnline user) (lastSeen user)) users.

Definition updateOnlineStatus (uid : Id) (args_isOnline : bool) (now : Millis) : M unit :=
  mutation
    (db_patch usersT uid (fun u => mkUser (user_id u) (username u) (sessionId u) args_isOnline now)).

(** * The chat area component

    The handlers and effects of [ChatArea], each as a function from what its
    closure holds (props, state) to the calls it makes, in order; the timer
    of the typing indicator lives in the component's ref and the browser's
    timer table. *)

Module ChatArea.

(** A JavaScript string: the sequence of its UTF-16 code units. *)
Definition JsString := list N.

(** The code units [String.prototype.trim] strips: WhiteSpace (TAB, VT, FF,
    the space separators U+0020, U+00A0, U+1680, U+2000..U+200A, U+202F,
    U+205F, U+3000, and U+FEFF) and LineTerminator (LF, CR, U+2028, U+2029). *)
Definition isWhiteSpace (c : N) : bool :=
  existsb (N.eqb c)
          [9; 10; 11; 12; 13; 32; 160; 5760; 8232; 8233; 8239; 8287; 12288; 65279]%N
  || ((8192 <=? c) && (c <=? 8202))%N.

Fixpoint trimStart (s : JsString) : JsString :=
  match s with
  | [] => []
  | c :: rest => if isWhiteSpace c then trimStart rest else s
  end.

Definition trimEnd (s : JsString) : JsString := rev (trimStart (rev s)).

Definition trim (s : JsString) : JsString := trimEnd (trimStart s).

Inductive ChatType := private | group.

Record Chat := mkChat {
  type        : ChatType;
  id          : string;
  name        : string;
  otherUserId : option Id;
  groupId     : option Id;
  isOnline    : option bool
}.

(** The props but for the callback [setSelectedChat], whose calls are
    recorded. *)
Record Props := mkProps {
  currentUserId : Id;
  selectedChat  : option Chat;
  isMobile      : bool
}.

(** What the component calls: the three mutations, its own state setters,
    the callback prop and the console. *)
Inductive Call :=
| sendMessage (content : JsString) (senderId : Id) (recipientId groupId : option Id)
| updateTypingIndicator (userId : Id) (chatId : string) (isTyping : bool)
| markMessagesSeen (chatId : string) (userId : Id)
| setMessage (message : JsString)
| setIsTyping (isTyping : bool)
| setSelectedChat (chat : option Chat)
| console_error.

(** A pending [setTimeout]: its id, when it is due, and what its callback
    calls. *)
Record Timer := mkTimer {
  timer_id : nat;
  due      : Millis;
  fires    : list Call
}.

(** [typingTimeoutRef.current] and the pending timers the component has
    set.  Timer ids are positive, hence truthy. *)
Record Env := mkEnv {
  typingTimeoutRef : option nat;
  timers           : list Timer;
  nextTimer        : nat
}.

Definition clearTimeout (t : nat) (pending : list Timer) : list Timer :=
  filter (fun x => negb (Nat.eqb (timer_id x) t)) pending.

(** The arguments of the two message queries; [None] is ["skip"]. *)
Definition privateMessagesArgs (props : Props) : option (Id * Id) :=
  match selectedChat props with
  | Some chat =>
      match type chat, otherUserId chat with
      | private, Some other => Some (currentUserId props, other)
      | _, _ => None
      end
  | None => None
  end.

Definition groupMessagesArgs (props : Props) : option Id :=
  match selectedChat props with
  | Some chat =>
      match type chat, groupId chat with
      | group, Some g => Some g
      | _, _ => None
      end
  | None => None
  end.

(** [messages]: [None] is [undefined], the result of a skipped or pending
    query. *)
Definition messages {A} (props : Props) (privateMessages groupMessages : option A) : option A :=
  match selectedChat props with
  | Some chat =>
      match type chat with
      | private => privateMessages
      | group => groupMessages
      end
  | None => groupMessages
  end.

(** The effect that marks messages as seen. *)
Definition seenEffect (props : Props) (messages : option (list Message)) : list Call :=
  match selectedChat props, messages with
  | Some chat, Some (first :: rest) =>
      let lastMessage := last rest first in
      if Nat.eqb (senderId lastMessage) (currentUserId props)
      then []
      else [markMessagesSeen (id chat) (currentUserId props)]
  | _, _ => []
  end.

(** [handleTyping], called at time [now]. *)
Definition handleTyping (props : Props) (isTyping : bool) (now : Millis) (env : Env)
  : list Call * Env :=
  match selectedChat props with
  | None => ([], env)
  | Some chat =>
      let calls :=
        if isTyping then []
        else [setIsTyping true;
              updateTypingIndicator (currentUserId props) (id chat) true] in
      let pending :=
        match typingTimeoutRef env with
        | Some t => clearTimeout t (timers env)
        | None => timers env
        end in
      let t := nextTimer env in
      (calls,
       mkEnv (Some t)
             (pending ++ [mkTimer t (now + 2000)%Z
                            [setIsTyping false;
                             updateTypingIndicator (currentUserId props) (id chat) false]])
             (S t))
  end.

(** The browser runs the callback of timer [t] at time [now]: only a pending
    timer that is due runs, once. *)
Definition timeout (t : nat) (now : Millis) (env : Env) : list Call * Env :=
  match find (fun x => Nat.eqb (timer_id x) t) (timers env) with
  | Some x =>
      if (due x <=? now)%Z
      then (fires x, mkEnv (typingTimeoutRef env) (clearTimeout t (timers env)) (nextTimer env))
      else ([], env)
  | None => ([], env)
  end.

(** [handleSendMessage]; [delivered] tells whether the awaited [sendMessage]
    resolved or threw. *)
Definition handleSendMessage (props : Props) (message : JsString) (isTyping : bool)
           (delivered : bool) : list Call :=
  match trim message, selectedChat props with
  | [], _ => []
  | _ :: _, None => []
  | _ :: _, Some chat =>
      sendMessage (trim message) (currentUserId props) (otherUserId chat) (groupId chat)
      :: (if delivered
          then setMessage []
               :: (if isTyping
                   then [setIsTyping false;
                         updateTypingIndicator (currentUserId props) (id chat) false]
                   else [])
          else [console_error])
  end.

(** The cleanup of the effect keyed on [selectedChat?.id], with the
    [isTyping] and [selectedChat] its closure holds. *)
Definition typingCleanup (props : Props) (isTyping : bool) (env : Env) : list Call * Env :=
  (match selectedChat props with
   | Some chat =>
       if isTyping
       then [updateTypingIndicator (currentUserId props) (id chat) false]
       else []
   | None => []
   end,
   match typingTimeoutRef env with
   | Some t => mkEnv (typingTimeoutRef env) (clearTimeout t (timers env)) (nextTimer env)
   | None => env
   end).

(** The close button of the header, when the header is rendered: what its
    [onClick] calls. *)
Definition closeButton (props : Props) : option (list Call) :=
  match selectedChat props with
  | Some _ => if isMobile props then None else Some [setSelectedChat None]
  | None => None
  end.

(** What happens to the component between renders. *)
Inductive Event :=
| typed (props : Props) (isTyping : bool) (now : Millis)
| timed_out (t : nat) (now : Millis)
| cleaned_up (props : Props) (isTyping : bool).

Definition step (e : Event) (env : Env) : list Call * Env :=
  match e with
  | typed props isTyping now => handleTyping props isTyping now env
  | timed_out t now => timeout t now env
  | cleaned_up props isTyping => typingCleanup props isTyping env
  end.

Definition run (events : list Event) (env : Env) : Env :=
  fold_left (fun env e => snd (step e env)) events env.

(** A freshly mounted component. *)
Definition mounted : Env := mkEnv None [] 1.

End ChatArea.

(** * The mobile view

    [MobileView] as a function from its props to what it renders: for each
    control, the calls its handler makes on the parent's setters. *)

Module MobileView.

Record Props := mkProps {
  currentUserId : Id;
  selectedChat  : option ChatArea.Chat;
  showChatList  : bool
}.

Inductive Call :=
| setSelectedChat (chat : option ChatArea.Chat)
| setShowChatList (show : bool).

Inductive View :=
| ChatList (sidebar_setSelectedChat : option ChatArea.Chat -> list Call)
| ChatScreen (backButton : option (list Call))
             (chatArea : ChatArea.Props)
             (chatArea_setSelectedChat : option ChatArea.Chat -> list Call)
             (floatingButton : option (list Call)).

Definition render (props : Props) : View :=
  if showChatList props
  then ChatList (fun chat => [setSelectedChat chat; setShowChatList false])
  else ChatScreen
         (match selectedChat props with
          | Some _ => Some [setShowChatList true]
          | None => None
          end)
         (ChatArea.mkProps (currentUserId props) (selectedChat props) true)
         (fun chat =>
            setSelectedChat chat
            :: match chat with
               | Some _ => []
               | None => [setShowChatList true]
               end)
         (match selectedChat props with
          | Some _ => None
          | None => Some [setShowChatList true]
          end).

End MobileView.

(** * Vocabulary of the properties *)

(** What a handle must satisfy to stand for a table of the store. *)
Record TableOk {D} (T : Table D) : Prop := {
  rows_set : forall l db, rows T (set_rows T l db) = l;
  set_set  : forall l l' db, set_rows T l (set_rows T l' db) = set_rows T l db;
  set_same : forall db, set_rows T (rows T db) db = db
}.

Arguments rows_set {D T} _ l db.
Arguments set_set {D T} _ l l' db.
Arguments set_same {D T} _ db.

(** No two documents of a table share an id. *)
Definition unique_ids {D} `{Doc D} (l : list D) : Prop := NoDup (map _id l).

(** The table without the documents whose id is listed. *)
Definition remove_ids {D} `{Doc D} (ids : list Id) (l : list D) : list D :=
  filter (fun d => negb (existsb (Nat.eqb (_id d)) ids)) l.

(** ** Step 2 of the deletion in closed form *)

(** Whether a membership's [ctx.db.get] found no group, [found] being the
    group each membership's [get] returned. *)
Definition unfound (found : GroupMember -> option Group) (m : GroupMember) : bool :=
  match found m with
  | None => true
  | Some _ => false
  end.

(** The groups table after the patch of one membership. *)
Definition patch_found (found : GroupMember -> option Group)
           (gs : list Group) (m : GroupMember) : list Group :=
  match found m with
  | Some group => map (fun d => if has_id (_id group) d then decremented group d else d) gs
  | None => gs
  end.

(** What step 2 leaves of a group [g] when [memberships] are the rows of the
    departing user. *)
Definition left_group (memberships : list GroupMember) (g : Group) : Group :=
  if existsb (fun m => has_id (member_groupId m) g) memberships
  then decremented g g
  else g.

(** The user's membership rows, as the [by_user] index yields them. *)
Definition memberships_of (uid : Id) (db : Db) : list GroupMember :=
  filter (fun m => Nat.eqb (userId m) uid) (groupMembers db).

(** The store's own invariant: within a table no two documents share an id. *)
Record wf (db : Db) : Prop := {
  wf_users            : unique_ids (users db);
  wf_messages         : unique_ids (messages db);
  wf_groupMembers     : unique_ids (groupMembers db);
  wf_groups           : unique_ids (groups db);
  wf_activeChats      : unique_ids (activeChats db);
  wf_typingIndicators : unique_ids (typingIndicators db)
}.

Definition not_sent_by (uid : Id) (m : Message) : bool := negb (Nat.eqb (senderId m) uid).

Definition not_owned_by {D} `{Owned D} (uid : Id) (d : D) : bool := negb (Nat.eqb (userId d) uid).

(** The store once everything the user owns is gone. *)
Definition purged (uid : Id) (db : Db) : Db :=
  mkDb (users db)
       (filter (not_sent_by uid) (messages db))
       (filter (not_owned_by uid) (groupMembers db))
       (map (left_group (memberships_of uid db)) (groups db))
       (filter (not_owned_by uid) (activeChats db))
       (filter (not_owned_by uid) (typingIndicators db))
       (scheduled db) (nextId db).

(** The store once the user document is gone too. *)
Definition erased (uid : Id) (db : Db) : Db :=
  mkDb (filter (fun u => negb (has_id uid u)) (users db))
       (filter (not_sent_by uid) (messages db))
       (filter (not_owned_by uid) (groupMembers db))
       (map (left_group (memberships_of uid db)) (groups db))
       (filter (not_owned_by uid) (activeChats db))
       (filter (not_owned_by uid) (typingIndicators db))
       (scheduled db) (nextId db).

(** The membership rows that point at a group. *)
Definition rows_of_group (gid : Id) (db : Db) : list GroupMember :=
  filter (fun m => Nat.eqb (member_groupId m) gid) (groupMembers db).

(** Every group's [memberCount] is the number of its membership rows. *)
Definition counts_accurate (db : Db) : Prop :=
  forall g, In g (groups db) ->
    memberCount g = js_number (Z.of_nat (List.length (rows_of_group (_id g) db))).

(** Whether the user has a membership row that points at the group. *)
Definition has_row_in (uid : Id) (db : Db) (g : Group) : bool :=
  existsb (fun m => Nat.eqb (member_groupId m) (_id g)) (memberships_of uid db).

(** The integer a number stands for, when it stands for one. *)
Definition integer_of (x : JsNumber) : option Z :=
  match x with
  | SpecFloat.S754_zero _ => Some 0%Z
  | SpecFloat.S754_finite s m e =>
      let magnitude :=
        match e with
        | Z0 => Some (Zpos m)
        | Zpos _ => Some (Zpos m * 2 ^ e)%Z
        | Zneg k =>
            if (Zpos m mod 2 ^ Zpos k =? 0)%Z then Some (Zpos m / 2 ^ Zpos k)%Z else None
        end in
      match magnitude with
      | Some z => Some (if s then (- z)%Z else z)
      | None => None
      end
  | _ => None
  end.

(** A number that is neither negative nor [-0]: NaN, [+0] or above zero. *)
Definition not_negative (x : JsNumber) : Prop :=
  x = NaN \/ x = js_number 0 \/ SpecFloat.SFltb (js_number 0) x = true.

(** The job [cleanupOfflineUsers] schedules for a user. *)
Definition deletion_of (user : User) : Job :=
  mkJob 0 (internal_users__deleteUserAndData (_id user)).

(** The check [createUser] makes first: the row has the requested username
    and is flagged online. *)
Definition holds_online (args_username : string) (u : User) : bool :=
  String.eqb (username u) args_username && Bool.eqb (isOnline u) true.

(** ** Users, sessions and names *)

(** No two user rows flagged online share a username, unless they are one
    document. *)
Definition online_names_distinct (db : Db) : Prop :=
  forall a b,
    In a (users db) -> In b (users db) ->
    isOnline a = true -> isOnline b = true ->
    username a = username b -> _id a = _id b.

(** What the resume branch of [createUser] writes into the session's row. *)
Definition resumed (args_username : string) (now : Millis) (u : User) : User :=
  mkUser (user_id u) args_username (sessionId u) true now.

(** What [updateOnlineStatus] writes into the row. *)
Definition refreshed (args_isOnline : bool) (now : Millis) (u : User) : User :=
  mkUser (user_id u) (username u) (sessionId u) args_isOnline now.

(** A table after a patch of the documents with id [i]. *)
Definition patched {D} `{Doc D} (i : Id) (upd : D -> D) (l : list D) : list D :=
  map (fun d => if has_id i d then upd d else d) l.

(** ** Scheduled functions *)

(** The scheduler runs a scheduled function as a call of its own: here, a
    mutation, hence a transaction. *)
Definition run_job (j : Job) : M unit :=
  match target j with
  | internal_users__deleteUserAndData uid => _deleteUserAndData uid
  end.

(** The jobs run one after the other; a job that fails fails alone.  The
    outcomes come back in the order of the jobs. *)
Fixpoint run_jobs (jobs : list Job) (db : Db) : list (Result unit) * Db :=
  match jobs with
  | [] => ([], db)
  | j :: rest =>
      let (r, db1) := run_job j db in
      let (rs, db2) := run_jobs rest db1 in
      (r :: rs, db2)
  end.

(** The users a sweep at [now] selects. *)
Definition idle_at (now : Millis) (u : User) : bool :=
  (lastSeen u <? now - IDLE_THRESHOLD_MS)%Z.

(** Whether an id is one of the listed ones. *)
Definition one_of (ids : list Id) (i : Id) : bool := existsb (Nat.eqb i) ids.

(** ** The typing timer *)

(** At most one timer is pending, and it is the one the ref holds. *)
Definition one_timer (env : ChatArea.Env) : Prop :=
  ChatArea.timers env = [] \/
  exists t,
    ChatArea.timers env = [t] /\
    ChatArea.typingTimeoutRef env = Some (ChatArea.timer_id t).

(** What the typing timer's callback calls. *)
Definition typing_stopped (props : ChatArea.Props) (chat : ChatArea.Chat) : list ChatArea.Call :=
  [ChatArea.setIsTyping false;
   ChatArea.updateTypingIndicator (ChatArea.currentUserId props) (ChatArea.id chat) false].

(** ** Sample stores *)

Definition alice : User := mkUser 1 "alice" "s1" true 1000%Z.
Definition bob   : User := mkUser 2 "bob" "s2" true 1000%Z.
Definition carol : User := mkUser 3 "carol" "s3" false 1000%Z.

(** Alice and Bob are in group 30; Alice also has a membership row for a
    group 31 that no longer exists. *)
Definition sample : Db :=
  mkDb [alice; bob; carol]
       [mkMessage 10 1 (Some 2) None "hi bob" false;
        mkMessage 11 2 (Some 1) None "hi alice" false;
        mkMessage 12 1 None (Some 30) "hi all" false]
       [mkGroupMember 20 1 30; mkGroupMember 21 2 30; mkGroupMember 22 1 31]
       [mkGroup 30 "general" (js_number 2)]
       [mkActiveChat 40 1 "bob"; mkActiveChat 41 2 "alice"]
       [mkTypingIndicator 50 1 "bob" true; mkTypingIndicator 51 2 "alice" false]
       [] 100.

(** A store in which group 30 claims five members and has one membership row. *)
Definition stale_count : Db :=
  mkDb [alice] [] [mkGroupMember 20 1 30] [mkGroup 30 "general" (js_number 5)] [] [] [] 100.

(** A user with two membership rows in one group. *)
Definition twice_member : Db :=
  mkDb [alice] [] [mkGroupMember 20 1 30; mkGroupMember 21 1 30]
       [mkGroup 30 "general" (js_number 2)] [] [] [] 100.

(** A group whose count is already zero although the user has a row in it. *)
Definition empty_count : Db :=
  mkDb [alice] [] [mkGroupMember 20 1 30] [mkGroup 30 "general" (js_number 0)] [] [] [] 100.

(** A store in which a group holds the given number as its count and Alice
    has one membership row in it. *)
Definition counting (count : JsNumber) : Db :=
  mkDb [alice] [] [mkGroupMember 20 1 30] [mkGroup 30 "general" count] [] [] [] 100.

(** Rows that name a user 9 the users table has no document for. *)
Definition orphans : Db :=
  mkDb [alice]
       [mkMessage 10 9 (Some 1) None "hello" false]
       [mkGroupMember 20 9 30]
       [mkGroup 30 "general" (js_number 1)]
       [mkActiveChat 40 9 "alice"]
       [mkTypingIndicator 50 9 "alice" true]
       [] 100.

(** Dave is flagged online and was last seen 90 seconds before time 100000;
    Erin was last seen 30 seconds before it, Frank six minutes before it. *)
Definition dave  : User := mkUser 4 "dave" "s4" true 10000%Z.
Definition erin  : User := mkUser 5 "erin" "s5" true 70000%Z.
Definition frank : User := mkUser 6 "frank" "s6" true (-260000)%Z.

Definition lobby : Db := mkDb [dave; erin; frank] [] [] [] [] [] [] 100.

(** * Properties *)

Unset Implicit Arguments.

Ltac distinct_ids :=
  unfold unique_ids; cbn; repeat constructor; cbn; intuition discriminate.

Lemma sample_wf : wf sample.
Proof. split; distinct_ids. Qed.

(** ** Lists *)

Lemma filter_all {A} (l : list A) : filter (fun _ => true) l = l.
Proof. induction l as [|a l IH]; simpl; [reflexivity | now rewrite IH]. Qed.

Lemma filter_twice {A} (f g : A -> bool) (l : list A) :
  filter f (filter g l) = filter (fun x => g x && f x) l.
Proof.
  induction l as [|a l IH]; simpl; [reflexivity|].
  destruct (g a); simpl; [destruct (f a)|]; now rewrite IH.
Qed.

Lemma NoDup_map_filter {K V} (key : V -> K) (keep : V -> bool) (docs : list V)
      (Hdistinct : NoDup (map key docs)) :
  NoDup (map key (filter keep docs)).
Proof.
  induction docs as [|d docs IH]; cbn [filter map] in *; [constructor|].
  inversion Hdistinct as [|? ? Hnotin Hrest]; subst.
  destruct (keep d); cbn [map]; [constructor|]; auto.
  intros Hin. apply Hnotin.
  apply in_map_iff in Hin. destruct Hin as [x [Hx Hin]].
  apply filter_In in Hin. apply in_map_iff. exists x. tauto.
Qed.

Lemma NoDup_map_eq {A B} (f : A -> B) (l : list A) (a b : A) :
  NoDup (map f l) -> In a l -> In b l -> f a = f b -> a = b.
Proof.
  induction l as [|x l IH]; simpl; intros Hnd Ha Hb Hf; [contradiction|].
  inversion Hnd as [|? ? Hnotin Hnd']; subst.
  destruct Ha as [Ha|Ha], Hb as [Hb|Hb]; subst; auto.
  - exfalso. apply Hnotin. rewrite Hf. now apply in_map.
  - exfalso. apply Hnotin. rewrite <- Hf. now apply in_map.
Qed.

Lemma combine_with_map {A B} (f : A -> B) (l : list A) :
  combine l (map f l) = map (fun x => (x, f x)) l.
Proof. induction l as [|a l IH]; simpl; [reflexivity | now rewrite IH]. Qed.

(** ** The handler monad *)

Lemma bind_Ok {A B} (m : M A) (k : A -> M B) db a db' :
  m db = (Ok a, db') -> bind m k db = k a db'.
Proof. unfold bind. now intros ->. Qed.

Lemma bind_Err {A B} (m : M A) (k : A -> M B) db e db' :
  m db = (Err e, db') -> bind m k db = (Err e, db').
Proof. unfold bind. now intros ->. Qed.

Lemma mutation_Ok {A} (h : M A) db a db' :
  h db = (Ok a, db') -> mutation h db = (Ok a, db').
Proof. unfold mutation. now intros ->. Qed.

Lemma mutation_Err {A} (h : M A) db e db' :
  h db = (Err e, db') -> mutation h db = (Err e, db).
Proof. unfold mutation. now intros ->. Qed.

(** ** Tables *)

Lemma usersT_ok : TableOk usersT.
Proof. split; intros; try reflexivity. now destruct db. Qed.

Lemma messagesT_ok : TableOk messagesT.
Proof. split; intros; try reflexivity. now destruct db. Qed.

Lemma groupMembersT_ok : TableOk groupMembersT.
Proof. split; intros; try reflexivity. now destruct db. Qed.

Lemma groupsT_ok : TableOk groupsT.
Proof. split; intros; try reflexivity. now destruct db. Qed.

Lemma activeChatsT_ok : TableOk activeChatsT.
Proof. split; intros; try reflexivity. now destruct db. Qed.

Lemma typingIndicatorsT_ok : TableOk typingIndicatorsT.
Proof. split; intros; try reflexivity. now destruct db. Qed.

Section StoreFacts.
Context {D : Type} `{Doc D}.

Lemma existsb_has_id (i : Id) (l : list D) :
  existsb (has_id i) l = true <-> In i (map _id l).
Proof.
  rewrite existsb_exists, in_map_iff. unfold has_id.
  split; intros [d [H1 H2]]; exists d.
  - apply Nat.eqb_eq in H2. tauto.
  - subst. rewrite Nat.eqb_refl. tauto.
Qed.

Lemma existsb_ids (i : Id) (ids : list Id) :
  existsb (Nat.eqb i) ids = true <-> In i ids.
Proof.
  rewrite existsb_exists. split.
  - intros [x [Hx Heq]]. apply Nat.eqb_eq in Heq. now subst.
  - intros Hin. exists i. split; [assumption | apply Nat.eqb_refl].
Qed.

Lemma remove_ids_cons (a : Id) (ids : list Id) (l : list D) :
  remove_ids ids (filter (fun d => negb (has_id a d)) l) = remove_ids (a :: ids) l.
Proof.
  unfold remove_ids. rewrite filter_twice. apply filter_ext.
  intros d. simpl. unfold has_id. now rewrite negb_orb.
Qed.

Lemma remove_ids_filter (p : D -> bool) (l : list D) :
  unique_ids l ->
  remove_ids (map _id (filter p l)) l = filter (fun d => negb (p d)) l.
Proof.
  intros Hu. unfold remove_ids. apply filter_ext_in. intros d Hd. f_equal.
  destruct (p d) eqn:Hp.
  - apply existsb_ids. apply in_map. apply filter_In. tauto.
  - apply not_true_is_false. rewrite existsb_ids, in_map_iff.
    intros [d' [Heq Hin]]. apply filter_In in Hin. destruct Hin as [Hin Hp'].
    assert (d' = d) by (eapply NoDup_map_eq; eauto). congruence.
Qed.

Lemma Promise_all_delete (T : Table D) (ids : list Id) :
  TableOk T ->
  forall db,
    NoDup ids ->
    (forall i, In i ids -> In i (map _id (rows T db))) ->
    Promise_all (map (db_delete T) ids) db
    = (Ok tt, set_rows T (remove_ids ids (rows T db)) db).
Proof.
  intros TOK. induction ids as [|a ids IH]; intros db Hnd Hin; simpl.
  - unfold ret, remove_ids. simpl. now rewrite filter_all, (set_same TOK).
  - inversion Hnd as [|? ? Hnotin Hnd']; subst.
    unfold bind at 1. unfold db_delete at 1.
    assert (Ha : existsb (has_id a) (rows T db) = true)
      by (apply existsb_has_id, Hin; now left).
    rewrite Ha. rewrite IH; auto.
    + rewrite (rows_set TOK), (set_set TOK). now rewrite remove_ids_cons.
    + intros i Hi. rewrite (rows_set TOK).
      specialize (Hin i (or_intror Hi)).
      apply in_map_iff in Hin. destruct Hin as [d [Hd Hdin]].
      apply in_map_iff. exists d. split; [assumption|].
      apply filter_In. split; [assumption|].
      unfold has_id. rewrite Hd. apply negb_true_iff, Nat.eqb_neq.
      intros ->. contradiction.
Qed.

(** Collecting the documents that satisfy [p] and deleting each of them by id
    leaves exactly the documents that do not satisfy [p]. *)
Lemma delete_collected (T : Table D) (p : D -> bool) db :
  TableOk T ->
  unique_ids (rows T db) ->
  (ds <- db_collect T p ;; Promise_all (map (fun d => db_delete T (_id d)) ds)) db
  = (Ok tt, set_rows T (filter (fun d => negb (p d)) (rows T db)) db).
Proof.
  intros TOK Hu. unfold bind at 1, db_collect at 1.
  rewrite <- (map_map _id (db_delete T)).
  rewrite Promise_all_delete; auto.
  - now rewrite remove_ids_filter.
  - now apply NoDup_map_filter.
  - intros i Hi. apply in_map_iff in Hi. destruct Hi as [d [Hd Hin]].
    apply filter_In in Hin. apply in_map_iff. exists d. tauto.
Qed.

Lemma Promise_all_get (T : Table D) {X} (key : X -> Id) (xs : list X) db :
  Promise_all_values (map (fun x => db_get T (key x)) xs) db
  = (Ok (map (fun x => find (has_id (key x)) (rows T db)) xs), db).
Proof.
  induction xs as [|x xs IH]; simpl; [reflexivity|].
  unfold bind at 1. unfold db_get at 1. unfold bind at 1. now rewrite IH.
Qed.
End StoreFacts.

(** ** Step 2 of the deletion: memberships and member counts *)

Section Memberships.
Variable found : GroupMember -> option Group.

Lemma patch_found_ids gs m : map _id (patch_found found gs m) = map _id gs.
Proof.
  unfold patch_found. destruct (found m) as [g|]; [|reflexivity].
  rewrite map_map. apply map_ext. intros d. now destruct (has_id (_id g) d).
Qed.

Lemma first_resumption (ms : list GroupMember) :
  forall db,
    (forall m g, In m ms -> found m = Some g -> In (_id g) (map _id (groups db))) ->
    NoDup (map _id ms) ->
    (forall m, In m ms -> In (_id m) (map _id (groupMembers db))) ->
    Promise_all (map (fun m => membership_resume1 m (found m)) ms) db
    = (Ok tt,
       mkDb (users db) (messages db)
            (remove_ids (map _id (filter (unfound found) ms)) (groupMembers db))
            (fold_left (patch_found found) ms (groups db))
            (activeChats db) (typingIndicators db) (scheduled db) (nextId db)).
Proof.
  induction ms as [|m ms IH]; intros db Hg Hnd Hin.
  - simpl. unfold ret, remove_ids. simpl. rewrite filter_all. now destruct db.
  - inversion Hnd as [|? ? Hnotin Hnd']; subst.
    cbn [map Promise_all fold_left filter]. unfold bind at 1.
    unfold membership_resume1 at 1.
    assert (Hu : unfound found m = match found m with None => true | Some _ => false end)
      by reflexivity.
    assert (Hp : patch_found found (groups db) m
                 = match found m with
                   | Some group =>
                       map (fun d => if has_id (_id group) d then decremented group d else d)
                           (groups db)
                   | None => groups db
                   end) by reflexivity.
    rewrite Hu, Hp. clear Hu Hp.
    destruct (found m) as [g|] eqn:Hf.
    + unfold db_patch.
      assert (Hex : existsb (has_id (_id g)) (rows groupsT db) = true).
      { apply existsb_has_id. apply (Hg m g); [now left | assumption]. }
      rewrite Hex. cbn [rows set_rows groupsT].
      rewrite IH; cbn [users messages groupMembers groups activeChats
                       typingIndicators scheduled nextId]; auto.
      * intros m' g' Hm' Hf'.
        assert (Hids := patch_found_ids (groups db) m).
        unfold patch_found in Hids. rewrite Hf in Hids. rewrite Hids.
        apply (Hg m' g'); [now right | assumption].
      * intros m' Hm'. apply Hin. now right.
    + unfold db_delete.
      assert (Hex : existsb (has_id (_id m)) (rows groupMembersT db) = true).
      { apply existsb_has_id. apply Hin. now left. }
      rewrite Hex. cbn [rows set_rows groupMembersT].
      rewrite IH; cbn [users messages groupMembers groups activeChats
                       typingIndicators scheduled nextId]; auto.
      * cbn [map]. now rewrite remove_ids_cons.
      * intros m' g' Hm' Hf'. apply (Hg m' g'); [now right | assumption].
      * intros m' Hm'.
        assert (Hm0 : In (_id m') (map _id (groupMembers db))) by (apply Hin; now right).
        apply in_map_iff in Hm0. destruct Hm0 as [d [Hd Hdin]].
        apply in_map_iff. exists d. split; [assumption|].
        apply filter_In. split; [assumption|].
        unfold has_id. rewrite Hd. apply negb_true_iff, Nat.eqb_neq.
        intros Heq. apply Hnotin. rewrite <- Heq. now apply in_map.
Qed.

Lemma second_resumption (ms : list GroupMember) db :
  Promise_all (map (fun m => membership_resume2 m (found m)) ms) db
  = Promise_all
      (map (db_delete groupMembersT) (map _id (filter (fun m => negb (unfound found m)) ms))) db.
Proof.
  revert db. induction ms as [|m ms IH]; intros db; [reflexivity|].
  cbn [map Promise_all filter]. unfold membership_resume2 at 1, unfound at 1.
  destruct (found m) as [g|]; cbn [negb map Promise_all].
  - unfold bind. destruct (db_delete groupMembersT (_id m) db) as [[[]|e] db']; auto.
  - unfold bind, ret. apply IH.
Qed.
End Memberships.

Lemma left_group_nil (g : Group) : left_group [] g = g.
Proof. reflexivity. Qed.

Lemma left_group_id ms (g : Group) : _id (left_group ms g) = _id g.
Proof. unfold left_group. now destruct (existsb _ ms). Qed.

Lemma left_group_name ms (g : Group) : name (left_group ms g) = name g.
Proof. unfold left_group. now destruct (existsb _ ms). Qed.

Lemma left_groups_ids ms (gs : list Group) :
  map _id (map (left_group ms) gs) = map _id gs.
Proof. rewrite map_map. apply map_ext. intros g. apply left_group_id. Qed.

(** Patching from the documents read before any patch was applied writes,
    for each group the user was in, that group's old count less one, floored
    at zero, however many of the user's memberships point at it. *)
Lemma patches_from_snapshot (gs0 : list Group) (ms : list GroupMember) :
  unique_ids gs0 ->
  forall acc,
    fold_left (patch_found (fun m => find (has_id (member_groupId m)) gs0)) ms
              (map (left_group acc) gs0)
    = map (left_group (acc ++ ms)) gs0.
Proof.
  intros Hu. induction ms as [|m ms IH]; intros acc.
  - now rewrite app_nil_r.
  - cbn [fold_left].
    replace (acc ++ m :: ms) with ((acc ++ [m]) ++ ms)
      by (now rewrite <- app_assoc).
    rewrite <- IH. f_equal.
    unfold patch_found.
    destruct (find (has_id (member_groupId m)) gs0) as [g|] eqn:Hf.
    + apply find_some in Hf. destruct Hf as [Hgin Hgid].
      rewrite map_map. apply map_ext_in. intros d Hd.
      unfold has_id at 1. rewrite left_group_id.
      destruct (Nat.eqb (_id d) (_id g)) eqn:Heq.
      * apply Nat.eqb_eq in Heq.
        assert (d = g) by (eapply NoDup_map_eq; eauto). subst d.
        unfold left_group at 2. rewrite existsb_app. cbn [existsb].
        rewrite Hgid, orb_true_r. cbn.
        unfold decremented.
        f_equal; [apply (left_group_id acc g) | apply left_group_name].
      * unfold left_group. rewrite existsb_app. cbn [existsb].
        assert (Hne : has_id (member_groupId m) d = false).
        { unfold has_id in *. apply Nat.eqb_eq in Hgid. now rewrite <- Hgid. }
        now rewrite Hne, !orb_false_r.
    + apply map_ext_in. intros d Hd.
      unfold left_group. rewrite existsb_app. cbn [existsb].
      rewrite (find_none _ _ Hf d Hd). now rewrite !orb_false_r.
Qed.

Lemma existsb_split_ids {A} (key : A -> Id) (p : A -> bool) (l : list A) (i : Id) :
  existsb (Nat.eqb i) (map key (filter p l) ++ map key (filter (fun x => negb (p x)) l))
  = existsb (Nat.eqb i) (map key l).
Proof.
  rewrite existsb_app. induction l as [|a l IH]; [reflexivity|].
  cbn [filter map existsb]. rewrite <- IH.
  destruct (p a); cbn [negb map existsb].
  - now rewrite orb_assoc.
  - rewrite !orb_assoc. f_equal. apply orb_comm.
Qed.

Lemma remove_ids_twice {D} `{Doc D} (a b : list Id) (l : list D) :
  remove_ids a (remove_ids b l) = remove_ids (b ++ a) l.
Proof.
  unfold remove_ids. rewrite filter_twice. apply filter_ext. intros d.
  now rewrite existsb_app, negb_orb.
Qed.

Lemma deleteMemberships_run (uid : Id) (db : Db) :
  unique_ids (groupMembers db) ->
  unique_ids (groups db) ->
  deleteMemberships uid db
  = (Ok tt,
     mkDb (users db) (messages db)
          (filter (fun m => negb (Nat.eqb (userId m) uid)) (groupMembers db))
          (map (left_group (memberships_of uid db)) (groups db))
          (activeChats db) (typingIndicators db) (scheduled db) (nextId db)).
Proof.
  intros Hum Hug. unfold deleteMemberships.
  unfold bind at 1, db_collect at 1. cbn [rows groupMembersT].
  fold (memberships_of uid db). set (ms := memberships_of uid db).
  unfold bind at 1. rewrite Promise_all_get. cbn [rows groupsT].
  rewrite combine_with_map, !map_map. cbn [fst snd].
  set (found := fun m => find (has_id (member_groupId m)) (groups db)).
  assert (Hnd : NoDup (map _id ms)) by (now apply NoDup_map_filter).
  assert (Hin : forall m, In m ms -> In (_id m) (map _id (groupMembers db))).
  { intros m Hm. apply in_map. apply filter_In in Hm. tauto. }
  unfold bind at 1. rewrite (first_resumption found); auto.
  - rewrite second_resumption. rewrite Promise_all_delete.
    + cbn [rows set_rows groupMembersT users messages groupMembers groups
           activeChats typingIndicators scheduled nextId].
      f_equal. f_equal.
      * rewrite remove_ids_twice.
        transitivity (remove_ids (map _id ms) (groupMembers db)).
        -- unfold remove_ids. apply filter_ext. intros d. f_equal.
           apply (existsb_split_ids _id (unfound found) ms).
        -- now apply remove_ids_filter.
      * assert (Hstart : map (left_group []) (groups db) = groups db)
          by (rewrite <- (map_id (groups db)) at 2; apply map_ext, left_group_nil).
        rewrite <- Hstart at 1.
        apply (patches_from_snapshot (groups db) ms Hug []).
    + apply groupMembersT_ok.
    + now apply NoDup_map_filter.
    + intros i Hi. cbn [rows groupMembersT groupMembers].
      apply in_map_iff in Hi. destruct Hi as [m [Hmi Hm]].
      apply filter_In in Hm. destruct Hm as [Hm Hfound].
      apply in_map_iff. exists m. split; [assumption|].
      apply filter_In. split; [apply filter_In in Hm; tauto|].
      apply negb_true_iff, not_true_is_false.
      rewrite existsb_ids, in_map_iff. intros [m' [Heq Hm']].
      apply filter_In in Hm'. destruct Hm' as [Hm' Hun].
      assert (m' = m) by (eapply NoDup_map_eq; eauto). subst m'.
      fold found in Hfound. rewrite Hun in Hfound. discriminate.
  - intros m g Hm Hf. apply find_some in Hf. destruct Hf as [Hgin _].
    now apply in_map.
Qed.

(** *** One membership at a time

    When the user has at most one membership row per group, it makes no
    difference whether the callbacks of step 2 interleave or run one after
    the other. *)

Lemma find_after_map {D} `{Doc D} (f : D -> D) (i : Id) (l : list D) :
  (forall x, _id (f x) = _id x) ->
  find (has_id i) (map f l) = option_map f (find (has_id i) l).
Proof.
  intros Hid. induction l as [|a l IH]; [reflexivity|].
  cbn [map find]. unfold has_id at 1 3. rewrite Hid.
  now destruct (Nat.eqb (_id a) i).
Qed.

Lemma left_group_untouched (acc : list GroupMember) (g : Group) :
  ~ In (_id g) (map member_groupId acc) -> left_group acc g = g.
Proof.
  intros Hnotin. unfold left_group.
  destruct (existsb (fun m => has_id (member_groupId m) g) acc) eqn:Hex; [|reflexivity].
  exfalso. apply existsb_exists in Hex. destruct Hex as [m [Hm Hid]].
  apply Hnotin. apply Nat.eqb_eq in Hid. rewrite Hid. now apply in_map.
Qed.

Lemma in_turn_run (gs0 : list Group) (ms : list GroupMember) :
  unique_ids gs0 ->
  forall acc db,
    groups db = map (left_group acc) gs0 ->
    NoDup (map member_groupId (acc ++ ms)) ->
    NoDup (map _id ms) ->
    (forall m, In m ms -> In (_id m) (map _id (groupMembers db))) ->
    Promise_all (map membership_in_turn ms) db
    = (Ok tt,
       mkDb (users db) (messages db)
            (remove_ids (map _id ms) (groupMembers db))
            (map (left_group (acc ++ ms)) gs0)
            (activeChats db) (typingIndicators db) (scheduled db) (nextId db)).
Proof.
  intros Hu. induction ms as [|m ms IH]; intros acc db Hgs Hone Hnd Hin.
  - cbn. unfold ret, remove_ids. cbn. rewrite filter_all, app_nil_r, <- Hgs.
    now destruct db.
  - inversion Hnd as [|? ? Hnotin Hnd']; subst.
    assert (Hfresh : ~ In (member_groupId m) (map member_groupId acc)).
    { rewrite map_app in Hone. cbn [map] in Hone.
      apply NoDup_remove_2 in Hone. intros Hacc. apply Hone.
      apply in_or_app. now left. }
    assert (Hstep := patches_from_snapshot gs0 [m] Hu acc).
    cbn [fold_left] in Hstep. unfold patch_found in Hstep.
    assert (Hex : existsb (has_id (_id m)) (groupMembers db) = true).
    { apply existsb_has_id. apply Hin. now left. }
    assert (Hrest : forall m', In m' ms ->
              In (_id m')
                 (map _id (filter (fun d => negb (has_id (_id m) d)) (groupMembers db)))).
    { intros m' Hm'.
      assert (Hm0 : In (_id m') (map _id (groupMembers db))) by (apply Hin; now right).
      apply in_map_iff in Hm0. destruct Hm0 as [d [Hd Hdin]].
      apply in_map_iff. exists d. split; [assumption|].
      apply filter_In. split; [assumption|].
      unfold has_id. rewrite Hd. apply negb_true_iff, Nat.eqb_neq.
      intros Heq. apply Hnotin. rewrite <- Heq. now apply in_map. }
    assert (Hone' : NoDup (map member_groupId ((acc ++ [m]) ++ ms)))
      by (now rewrite <- app_assoc).
    replace (acc ++ m :: ms) with ((acc ++ [m]) ++ ms) by (now rewrite <- app_assoc).
    cbn [map Promise_all]. unfold bind at 1. unfold membership_in_turn at 1.
    unfold bind at 1. unfold bind at 1. unfold db_get at 1. cbn [rows groupsT].
    rewrite Hgs, (find_after_map _ _ _ (left_group_id acc)).
    destruct (find (has_id (member_groupId m)) gs0) as [g|] eqn:Hf; cbn [option_map].
    + destruct (find_some _ _ Hf) as [Hgin Hgid]. apply Nat.eqb_eq in Hgid.
      rewrite (left_group_untouched acc g) by (now rewrite Hgid).
      unfold db_patch. cbn [rows set_rows groupsT]. rewrite Hgs.
      assert (Hpresent : existsb (has_id (_id g)) (map (left_group acc) gs0) = true).
      { apply existsb_has_id. rewrite left_groups_ids. now apply in_map. }
      rewrite Hpresent, Hstep.
      unfold db_delete. cbn [rows set_rows groupMembersT groupMembers]. rewrite Hex.
      rewrite (IH (acc ++ [m])); auto.
      cbn [users messages groupMembers groups activeChats typingIndicators scheduled nextId].
      now rewrite remove_ids_cons.
    + unfold ret. unfold db_delete. cbn [rows set_rows groupMembersT]. rewrite Hex.
      rewrite (IH (acc ++ [m])); auto.
      * cbn [users messages groupMembers groups activeChats typingIndicators scheduled nextId].
        now rewrite remove_ids_cons.
      * cbn [groups]. now rewrite Hgs, Hstep.
Qed.

(** With at most one membership row per group, step 2 does what handling the
    memberships one after the other would do. *)
Lemma in_turn_agrees (uid : Id) (db : Db) :
  unique_ids (groupMembers db) ->
  unique_ids (groups db) ->
  NoDup (map member_groupId (memberships_of uid db)) ->
  deleteMemberships_in_turn uid db = deleteMemberships uid db.
Proof.
  intros Hum Hug Hone. rewrite deleteMemberships_run by assumption.
  unfold deleteMemberships_in_turn, bind, db_collect. cbn [rows groupMembersT].
  fold (memberships_of uid db).
  rewrite (in_turn_run (groups db) (memberships_of uid db) Hug []).
  - cbn [app]. f_equal. f_equal. now apply remove_ids_filter.
  - rewrite <- (map_id (groups db)) at 1. apply map_ext. intros g.
    symmetry. apply left_group_nil.
  - assumption.
  - now apply NoDup_map_filter.
  - intros m Hm. apply in_map. apply filter_In in Hm. tauto.
Qed.

Lemma in_turn_agrees_witness :
  deleteMemberships_in_turn 1 sample = deleteMemberships 1 sample.
Proof.
  apply (in_turn_agrees 1 sample).
  - distinct_ids.
  - distinct_ids.
  - cbn. repeat constructor; cbn; intuition discriminate.
Defined.

(** ** The whole deletion *)

Lemma deleteMessages_run (uid : Id) (db : Db) :
  unique_ids (messages db) ->
  deleteMessages uid db
  = (Ok tt, set_rows messagesT (filter (not_sent_by uid) (messages db)) db).
Proof.
  intros Hu. unfold deleteMessages.
  now rewrite (delete_collected messagesT _ db messagesT_ok Hu).
Qed.

Lemma deleteActiveChats_run (uid : Id) (db : Db) :
  unique_ids (activeChats db) ->
  deleteActiveChats uid db
  = (Ok tt, set_rows activeChatsT (filter (not_owned_by uid) (activeChats db)) db).
Proof.
  intros Hu. unfold deleteActiveChats.
  now rewrite (delete_collected activeChatsT _ db activeChatsT_ok Hu).
Qed.

Lemma deleteTypingIndicators_run (uid : Id) (db : Db) :
  unique_ids (typingIndicators db) ->
  deleteTypingIndicators uid db
  = (Ok tt, set_rows typingIndicatorsT (filter (not_owned_by uid) (typingIndicators db)) db).
Proof.
  intros Hu. unfold deleteTypingIndicators.
  now rewrite (delete_collected typingIndicatorsT _ db typingIndicatorsT_ok Hu).
Qed.

Lemma deleteOwnedData_run (uid : Id) (db : Db) :
  wf db -> deleteOwnedData uid db = (Ok tt, purged uid db).
Proof.
  intros [_ Hm Hgm Hg Hac Hti]. unfold deleteOwnedData.
  rewrite (bind_Ok _ _ _ _ _ (deleteMessages_run uid db Hm)).
  cbn [rows set_rows messagesT].
  rewrite (bind_Ok _ _ _ _ _ (deleteMemberships_run uid (mkDb _ _ _ _ _ _ _ _) Hgm Hg)).
  cbn [users messages groupMembers groups activeChats typingIndicators scheduled nextId].
  rewrite (bind_Ok _ _ _ _ _ (deleteActiveChats_run uid (mkDb _ _ _ _ _ _ _ _) Hac)).
  cbn [rows set_rows activeChatsT
       users messages groupMembers groups activeChats typingIndicators scheduled nextId].
  now rewrite (deleteTypingIndicators_run uid (mkDb _ _ _ _ _ _ _ _) Hti).
Qed.

Lemma handler_present (uid : Id) (db : Db) :
  wf db ->
  existsb (has_id uid) (users db) = true ->
  _deleteUserAndData_handler uid db = (Ok tt, erased uid db).
Proof.
  intros Hwf Hex. unfold _deleteUserAndData_handler.
  rewrite (bind_Ok _ _ _ _ _ (deleteOwnedData_run uid db Hwf)).
  unfold db_delete. cbn [rows usersT purged users]. now rewrite Hex.
Qed.

Lemma handler_absent (uid : Id) (db : Db) :
  wf db ->
  existsb (has_id uid) (users db) = false ->
  _deleteUserAndData_handler uid db
  = (Err "Delete on nonexistent document ID", purged uid db).
Proof.
  intros Hwf Hex. unfold _deleteUserAndData_handler.
  rewrite (bind_Ok _ _ _ _ _ (deleteOwnedData_run uid db Hwf)).
  unfold db_delete. cbn [rows usersT purged users]. now rewrite Hex.
Qed.

Lemma get_present {D} `{Doc D} (T : Table D) (uid : Id) (d : D) (db : Db) :
  db_get T uid db = (Ok (Some d), db) ->
  existsb (has_id uid) (rows T db) = true /\ In d (rows T db) /\ _id d = uid.
Proof.
  unfold db_get. intros Heq. injection Heq as Hfind.
  apply find_some in Hfind. destruct Hfind as [Hin Hid].
  split; [|split]; auto.
  - apply existsb_exists. eauto.
  - now apply Nat.eqb_eq.
Qed.

(** A run on a user the store knows. *)
Lemma deleteUserAndData_run (uid : Id) (u : User) (db : Db) :
  wf db ->
  db_get usersT uid db = (Ok (Some u), db) ->
  _deleteUserAndData uid db = (Ok tt, erased uid db).
Proof.
  intros Hwf Hget. apply get_present in Hget. destruct Hget as [Hex _].
  unfold _deleteUserAndData, internalMutation.
  apply mutation_Ok. now apply handler_present.
Qed.

Lemma find_filtered_out {A} (p : A -> bool) (l : list A) :
  find p (filter (fun x => negb (p x)) l) = None.
Proof.
  induction l as [|a l IH]; [reflexivity|].
  cbn [filter]. destruct (p a) eqn:Hp; cbn [negb find]; [assumption|].
  now rewrite Hp.
Qed.

Lemma find_unique {D} `{Doc D} (l : list D) (d : D) :
  unique_ids l -> In d l -> find (has_id (_id d)) l = Some d.
Proof.
  intros Hu Hin.
  destruct (find (has_id (_id d)) l) as [d'|] eqn:Hf.
  - apply find_some in Hf. destruct Hf as [Hin' Hid].
    apply Nat.eqb_eq in Hid. f_equal. eapply NoDup_map_eq; eauto.
  - apply (find_none _ _ Hf) in Hin. unfold has_id in Hin.
    now rewrite Nat.eqb_refl in Hin.
Qed.

Lemma erased_wf (uid : Id) (db : Db) : wf db -> wf (erased uid db).
Proof.
  intros [Hu Hm Hgm Hg Hac Hti].
  split; unfold unique_ids, erased in *;
    cbn [users messages groupMembers groups activeChats typingIndicators];
    try (now apply NoDup_map_filter).
  now rewrite left_groups_ids.
Qed.

(** * Numbers *)

(** The rounding of [SpecFloat] iterates with its own [iter_pos]. *)
Lemma iter_pos_is_iter {A} (f : A -> A) (n : positive) (x : A) :
  SpecFloat.iter_pos f n x = Pos.iter f x n.
Proof.
  assert (Hcomm : forall k y, Pos.iter f (f y) k = f (Pos.iter f y k)).
  { induction k as [k IH|k IH|]; intros y; cbn; rewrite ?IH; reflexivity. }
  revert x. induction n as [n IH|n IH|]; intros x; cbn.
  - rewrite !IH. now rewrite !Hcomm.
  - now rewrite !IH.
  - reflexivity.
Qed.

Lemma digits_size (p : positive) : SpecFloat.digits2_pos p = Pos.size p.
Proof. induction p; cbn; congruence. Qed.

(** A mantissa below [2 ^ d] has at most [d] binary digits. *)
Lemma digits_bound (p : positive) (d : Z) :
  (0 <= d -> Zpos p < 2 ^ d -> Zpos (SpecFloat.digits2_pos p) <= d)%Z.
Proof.
  intros Hd Hp. rewrite digits_size.
  pose proof (Pos.size_le p) as Hle.
  assert (H2 : (2 ^ Zpos (Pos.size p) <= 2 * Zpos p)%Z).
  { rewrite <- Pos2Z.inj_pow. lia. }
  destruct (Z.le_gt_cases (Zpos (Pos.size p)) d) as [|Hgt]; [assumption|].
  assert (H : (2 ^ (d + 1) <= 2 ^ Zpos (Pos.size p))%Z) by (apply Z.pow_le_mono_r; lia).
  rewrite Z.pow_add_r in H by lia. lia.
Qed.

Lemma shiftl_digits (p : positive) (n : N) :
  Zpos (SpecFloat.digits2_pos (Pos.shiftl p n))
  = (Zpos (SpecFloat.digits2_pos p) + Z.of_N n)%Z.
Proof.
  destruct n as [|k]; [cbn; lia|]. cbn [Pos.shiftl Z.of_N].
  induction k as [|k IH] using Pos.peano_ind.
  - cbn. lia.
  - rewrite Pos.iter_succ. cbn [SpecFloat.digits2_pos]. lia.
Qed.

Lemma shiftl_value (p : positive) (n : N) :
  Zpos (Pos.shiftl p n) = (Zpos p * 2 ^ Z.of_N n)%Z.
Proof.
  destruct n as [|k]; [cbn; lia|]. cbn [Pos.shiftl Z.of_N].
  induction k as [|k IH] using Pos.peano_ind.
  - cbn. lia.
  - rewrite Pos.iter_succ, Pos2Z.inj_succ, Z.pow_succ_r by lia.
    rewrite Pos2Z.inj_xO, IH. lia.
Qed.

Lemma shiftl_shiftl (p : positive) (n m : N) :
  Pos.shiftl (Pos.shiftl p n) m = Pos.shiftl p (n + m).
Proof.
  apply Pos2Z.inj. rewrite !shiftl_value, N2Z.inj_add, Z.pow_add_r by lia. lia.
Qed.

(** Aligning a mantissa to a smaller exponent shifts it left. *)
Lemma shl_align_shiftl (m : positive) (e e' : Z) :
  SpecFloat.shl_align m e e' = (Pos.shiftl m (Z.to_N (e - e')), Z.min e e').
Proof.
  unfold SpecFloat.shl_align.
  destruct (e' - e)%Z as [|k|k] eqn:E.
  - replace (e - e')%Z with 0%Z by lia. cbn. f_equal. lia.
  - replace (Z.to_N (e - e')) with 0%N by lia. cbn. f_equal. lia.
  - replace (e - e')%Z with (Zpos k) by lia. cbn. f_equal. lia.
Qed.

(** Shifting right what was shifted left loses nothing. *)
Lemma shr_shiftl (r : positive) (n : N) (e : Z) :
  SpecFloat.shr (SpecFloat.Build_shr_record (Zpos (Pos.shiftl r n)) false false) e (Z.of_N n)
  = (SpecFloat.Build_shr_record (Zpos r) false false, (e + Z.of_N n)%Z).
Proof.
  destruct n as [|k]; [cbn; f_equal; lia|].
  cbn [Z.of_N SpecFloat.shr Pos.shiftl]. f_equal.
  rewrite iter_pos_is_iter.
  revert r. induction k as [|k IH] using Pos.peano_ind; intros r.
  - reflexivity.
  - rewrite Pos.iter_succ_r. rewrite Pos.iter_succ. cbn [SpecFloat.shr_1 orb]. apply IH.
Qed.

(** A mantissa of 53 digits followed by zeros is rounded to itself. *)
Lemma round_aux_exact (r : positive) (n : N) (e : Z) :
  Zpos (SpecFloat.digits2_pos r) = 53%Z ->
  (-1074 <= e + Z.of_N n <= 971)%Z ->
  SpecFloat.binary_round_aux 53 1024 false (Zpos (Pos.shiftl r n)) e SpecFloat.loc_Exact
  = SpecFloat.S754_finite false r (e + Z.of_N n).
Proof.
  intros Hr He. unfold SpecFloat.binary_round_aux, SpecFloat.shr_fexp.
  cbn [SpecFloat.shr_record_of_loc SpecFloat.Zdigits2].
  rewrite shiftl_digits, Hr.
  replace (SpecFloat.fexp 53 1024 (53 + Z.of_N n + e) - e)%Z with (Z.of_N n)
    by (unfold SpecFloat.fexp, SpecFloat.emin; lia).
  rewrite shr_shiftl.
  cbn [SpecFloat.shr_m SpecFloat.loc_of_shr_record SpecFloat.round_nearest_even
       SpecFloat.Zdigits2].
  rewrite Hr.
  replace (SpecFloat.fexp 53 1024 (53 + (e + Z.of_N n)) - (e + Z.of_N n))%Z with 0%Z
    by (unfold SpecFloat.fexp, SpecFloat.emin; lia).
  cbn [SpecFloat.shr SpecFloat.shr_m].
  destruct (Z.leb_spec (e + Z.of_N n) (1024 - 53)); [reflexivity | lia].
Qed.

(** A mantissa of at most 53 digits followed by zeros is representable. *)
Lemma round_shifted (q : positive) (j : N) (e : Z) :
  let d := Zpos (SpecFloat.digits2_pos q) in
  (d <= 53)%Z ->
  (-1074 <= e + Z.of_N j + d - 53 <= 971)%Z ->
  SpecFloat.binary_round 53 1024 false (Pos.shiftl q j) e
  = SpecFloat.S754_finite false (Pos.shiftl q (Z.to_N (53 - d))) (e + Z.of_N j + d - 53).
Proof.
  intros d Hd He. unfold SpecFloat.binary_round.
  rewrite shl_align_shiftl, shiftl_digits. fold d.
  replace (SpecFloat.fexp 53 1024 (d + Z.of_N j + e)) with (e + Z.of_N j + d - 53)%Z
    by (unfold SpecFloat.fexp, SpecFloat.emin; lia).
  rewrite shiftl_shiftl.
  assert (Hr : Zpos (SpecFloat.digits2_pos (Pos.shiftl q (Z.to_N (53 - d)))) = 53%Z).
  { rewrite shiftl_digits. fold d. lia. }
  destruct (Z.le_gt_cases (Z.of_N j + d) 53) as [Hle|Hgt].
  - replace (j + Z.to_N (e - (e + Z.of_N j + d - 53)))%N with (Z.to_N (53 - d)) by lia.
    replace (Z.min e (e + Z.of_N j + d - 53)) with (e + Z.of_N j + d - 53)%Z by lia.
    pose proof (round_aux_exact _ 0%N (e + Z.of_N j + d - 53) Hr) as H.
    cbn [Pos.shiftl Z.of_N] in H. rewrite H by lia. f_equal; lia.
  - replace (j + Z.to_N (e - (e + Z.of_N j + d - 53)))%N
      with (Z.to_N (53 - d) + Z.to_N (Z.of_N j + d - 53))%N by lia.
    replace (Z.min e (e + Z.of_N j + d - 53)) with e by lia.
    rewrite <- shiftl_shiftl.
    rewrite (round_aux_exact _ _ e Hr) by lia. f_equal; lia.
Qed.

(** The double of a positive integer of at most 53 digits. *)
Lemma js_number_normal (p : positive) :
  let d := Zpos (SpecFloat.digits2_pos p) in
  (d <= 53)%Z ->
  js_number (Zpos p)
  = SpecFloat.S754_finite false (Pos.shiftl p (Z.to_N (53 - d))) (d - 53).
Proof.
  intros d Hd. unfold js_number, SpecFloat.binary_normalize.
  pose proof (round_shifted p 0%N 0) as H. cbn zeta in H. fold d in H.
  cbn [Pos.shiftl Z.of_N] in H. rewrite H by lia. f_equal; lia.
Qed.

(** Below [2 ^ 53] the subtraction of [1] is exact. *)
Lemma minus_one (p : positive) :
  (Zpos p < 2 ^ 53)%Z ->
  minus (js_number (Zpos p)) (js_number 1) = js_number (Zpos p - 1).
Proof.
  intros Hp.
  assert (Hd : (Zpos (SpecFloat.digits2_pos p) <= 53)%Z) by (apply digits_bound; lia).
  rewrite (js_number_normal p Hd).
  change (js_number 1) with (SpecFloat.S754_finite false 4503599627370496 (-52)).
  unfold minus, SpecFloat.SFsub, SpecFloat.cond_Zopp.
  rewrite !shl_align_shiftl. cbn [fst].
  set (d := Zpos (SpecFloat.digits2_pos p)) in *.
  assert (Hd1 : (1 <= d)%Z) by (unfold d; lia).
  replace (Z.min (d - 53) (-52)) with (-52)%Z by lia.
  rewrite shiftl_shiftl.
  replace (Z.to_N (53 - d) + Z.to_N (d - 53 - -52))%N with 52%N by lia.
  replace (Z.to_N (-52 - -52)) with 0%N by lia.
  change (Pos.shiftl 4503599627370496 0) with 4503599627370496%positive.
  destruct (Pos.eq_dec p 1) as [->|Hne].
  - reflexivity.
  - assert (E : (Zpos (Pos.shiftl p 52) - 4503599627370496)%Z
                = Zpos (Pos.shiftl (Pos.pred p) 52)).
    { rewrite !shiftl_value. change (2 ^ Z.of_N 52)%Z with 4503599627370496%Z. lia. }
    rewrite E. replace (Zpos p - 1)%Z with (Zpos (Pos.pred p)) by lia.
    assert (Hq : (Zpos (SpecFloat.digits2_pos (Pos.pred p)) <= 53)%Z)
      by (apply digits_bound; lia).
    rewrite (js_number_normal _ Hq).
    unfold SpecFloat.binary_normalize.
    pose proof (round_shifted (Pos.pred p) 52 (-52)) as H. cbn zeta in H.
    rewrite H by lia. f_equal; lia.
Qed.

Lemma js_number_positive (p : positive) :
  (Zpos p < 2 ^ 53)%Z ->
  Math_max [js_number 0; js_number (Zpos p)] = js_number (Zpos p).
Proof.
  intros Hp. rewrite js_number_normal by (apply digits_bound; lia). reflexivity.
Qed.

(** [Math.max(0, n - 1)] on an integer count up to [2 ^ 53]. *)
Lemma decrement_exact (n : Z) :
  (0 <= n <= 2 ^ 53)%Z ->
  Math_max [js_number 0; minus (js_number n) (js_number 1)] = js_number (Z.max 0 (n - 1)).
Proof.
  intros Hn.
  destruct (Z.eq_dec n 0) as [->|H0]; [reflexivity|].
  destruct (Z.eq_dec n 1) as [->|H1]; [reflexivity|].
  destruct (Z.eq_dec n (2 ^ 53)) as [->|Hmax]; [vm_compute; reflexivity|].
  destruct n as [|p|p]; try lia.
  rewrite minus_one by lia.
  replace (Z.max 0 (Zpos p - 1)) with (Zpos p - 1)%Z by lia.
  replace (Zpos p - 1)%Z with (Zpos (Pos.pred p)) by lia.
  apply js_number_positive. lia.
Qed.

(** [Math.max(0, x)] is never below zero, and never [-0]. *)
Lemma Math_max_zero (x : JsNumber) : not_negative (Math_max [js_number 0; x]).
Proof.
  unfold not_negative.
  destruct x as [[]|[]| |[] m e]; cbn; auto.
Qed.

Lemma shr_1_nonneg (r : SpecFloat.shr_record) :
  (0 <= SpecFloat.shr_m r -> 0 <= SpecFloat.shr_m (SpecFloat.shr_1 r))%Z.
Proof.
  destruct r as [[|[p|p|]|p] r s]; cbn; lia.
Qed.

Lemma shr_fexp_nonneg (m e : Z) (l : SpecFloat.location) :
  (0 <= m -> 0 <= SpecFloat.shr_m (fst (SpecFloat.shr_fexp 53 1024 m e l)))%Z.
Proof.
  intros Hm. unfold SpecFloat.shr_fexp, SpecFloat.shr.
  assert (H0 : (0 <= SpecFloat.shr_m (SpecFloat.shr_record_of_loc m l))%Z)
    by (destruct l as [|[]]; exact Hm).
  destruct (SpecFloat.fexp 53 1024 (SpecFloat.Zdigits2 m + e) - e)%Z as [|k|k];
    cbn [fst]; try exact H0.
  rewrite iter_pos_is_iter.
  apply Pos.iter_invariant; [|exact H0].
  intros r Hr. now apply shr_1_nonneg.
Qed.

(** Rounding a negative value gives a negative number or [-0]. *)
Lemma round_negative (m : positive) (e : Z) :
  Math_max [js_number 0; SpecFloat.binary_round 53 1024 true m e] = js_number 0.
Proof.
  unfold SpecFloat.binary_round.
  destruct (SpecFloat.shl_align m e _) as [mz ez].
  unfold SpecFloat.binary_round_aux.
  pose proof (shr_fexp_nonneg (Zpos mz) ez SpecFloat.loc_Exact) as H1.
  destruct (SpecFloat.shr_fexp 53 1024 (Zpos mz) ez SpecFloat.loc_Exact) as [mrs' e'].
  cbn [fst] in H1. specialize (H1 ltac:(lia)).
  assert (H2 : (0 <= SpecFloat.round_nearest_even (SpecFloat.shr_m mrs')
                       (SpecFloat.loc_of_shr_record mrs'))%Z).
  { unfold SpecFloat.round_nearest_even.
    destruct (SpecFloat.loc_of_shr_record mrs') as [|[]];
      try destruct (Z.even (SpecFloat.shr_m mrs')); lia. }
  pose proof (shr_fexp_nonneg _ e' SpecFloat.loc_Exact H2) as H3.
  destruct (SpecFloat.shr_fexp 53 1024 _ e' SpecFloat.loc_Exact) as [mrs'' e''].
  cbn [fst] in H3.
  destruct (SpecFloat.shr_m mrs'') as [|k|k]; [reflexivity| |lia].
  now destruct (e'' <=? 1024 - 53)%Z.
Qed.

(** A count below zero is raised to zero. *)
Lemma decrement_negative (x : JsNumber) :
  SpecFloat.SFltb x (js_number 0) = true ->
  Math_max [js_number 0; minus x (js_number 1)] = js_number 0.
Proof.
  destruct x as [[]|[]| |[] m e]; try discriminate; intros _; [reflexivity|].
  change (js_number 1) with (SpecFloat.S754_finite false 4503599627370496 (-52)).
  unfold minus, SpecFloat.SFsub, SpecFloat.cond_Zopp.
  cbn [Z.opp Z.sub Z.add SpecFloat.binary_normalize].
  apply round_negative.
Qed.

(** * The properties of the specification *)

Lemma left_group_explicit (uid : Id) (db : Db) (g : Group) :
  left_group (memberships_of uid db) g
  = if has_row_in uid db g
    then mkGroup (group_id g) (name g)
                 (Math_max [js_number 0; minus (memberCount g) (js_number 1)])
    else g.
Proof.
  unfold left_group, has_row_in.
  replace (existsb (fun m => has_id (member_groupId m) g) (memberships_of uid db))
    with (existsb (fun m => Nat.eqb (member_groupId m) (_id g)) (memberships_of uid db)).
  - reflexivity.
  - clear. induction (memberships_of uid db) as [|m ms IH]; [reflexivity|].
    cbn [existsb]. rewrite IH. unfold has_id. now rewrite Nat.eqb_sym.
Qed.

Lemma find_mapped (f : Group -> Group) (gs : list Group) (g : Group) :
  (forall x, _id (f x) = _id x) ->
  unique_ids gs -> In g gs ->
  find (has_id (_id g)) (map f gs) = Some (f g).
Proof.
  intros Hid Hu Hin. rewrite <- (Hid g). apply find_unique.
  - unfold unique_ids. rewrite map_map.
    replace (map (fun x => _id (f x)) gs) with (map _id gs); [exact Hu|].
    apply map_ext. intros x. now rewrite Hid.
  - now apply in_map.
Qed.

Lemma find_absent {D} `{Doc D} (i : Id) (l : list D) :
  find (has_id i) l = None -> existsb (has_id i) l = false.
Proof.
  intros Hfind. apply not_true_is_false. intros Hex.
  apply existsb_exists in Hex. destruct Hex as [x [Hin Hx]].
  now rewrite (find_none _ _ Hfind x Hin) in Hx.
Qed.

(** C1 (as amended): the handler is the five steps in the order of the
    source, the delete of the user document last.  On a store with unique
    ids the first four steps complete for every [userId]: they leave each of
    the four tables without the rows of the user and write
    [Math.max(0, memberCount - 1)] into every group a membership row of the
    user points at, which is one less for an integer count from 1 to 2^53.
    When the store has the user's document, [ctx.db.get(userId)] returns it
    in every state before the last delete and [null] after it, and the run
    completes.  When it has not, the last delete throws and the transaction
    keeps nothing: no row is deleted. *)
Theorem deleteUserAndData_cascade (uid : Id) (db : Db) :
  wf db ->
  (forall s,
     _deleteUserAndData_handler uid s
     = (deleteMessages uid ;; deleteMemberships uid ;; deleteActiveChats uid ;;
        deleteTypingIndicators uid ;; db_delete usersT uid) s) /\
  exists s1 s2 s3 s4,
    deleteMessages uid db = (Ok tt, s1) /\
    deleteMemberships uid s1 = (Ok tt, s2) /\
    deleteActiveChats uid s2 = (Ok tt, s3) /\
    deleteTypingIndicators uid s3 = (Ok tt, s4) /\
    _deleteUserAndData_handler uid db = db_delete usersT uid s4 /\
    messages s4 = filter (fun m => negb (Nat.eqb (senderId m) uid)) (messages db) /\
    groupMembers s4 = filter (fun m => negb (Nat.eqb (userId m) uid)) (groupMembers db) /\
    groups s4
    = map (fun g =>
             if has_row_in uid db g
             then mkGroup (group_id g) (name g)
                          (Math_max [js_number 0; minus (memberCount g) (js_number 1)])
             else g)
          (groups db) /\
    activeChats s4 = filter (fun c => negb (Nat.eqb (userId c) uid)) (activeChats db) /\
    typingIndicators s4
    = filter (fun t => negb (Nat.eqb (userId t) uid)) (typingIndicators db) /\
    (forall g n,
       In g (groups db) -> has_row_in uid db g = true ->
       (1 <= n <= 2 ^ 53)%Z -> memberCount g = js_number n ->
       exists g',
         db_get groupsT (_id g) s4 = (Ok (Some g'), s4) /\
         memberCount g' = js_number (n - 1)) /\
    (forall u,
       db_get usersT uid db = (Ok (Some u), db) ->
       (forall s, In s [db; s1; s2; s3; s4] -> db_get usersT uid s = (Ok (Some u), s)) /\
       exists final,
         db_delete usersT uid s4 = (Ok tt, final) /\
         _deleteUserAndData uid db = (Ok tt, final) /\
         db_get usersT uid final = (Ok None, final) /\
         users final = filter (fun x => negb (has_id uid x)) (users db) /\
         messages final = messages s4 /\
         groupMembers final = groupMembers s4 /\
         groups final = groups s4 /\
         activeChats final = activeChats s4 /\
         typingIndicators final = typingIndicators s4) /\
    (db_get usersT uid db = (Ok None, db) ->
       _deleteUserAndData_handler uid db = (Err "Delete on nonexistent document ID", s4) /\
       _deleteUserAndData uid db = (Err "Delete on nonexistent document ID", db)).
Proof.
  intros Hwf. split.
  { intros s. unfold _deleteUserAndData_handler, deleteOwnedData, bind.
    destruct (deleteMessages uid s) as [[[]|e1] t1]; [|reflexivity].
    destruct (deleteMemberships uid t1) as [[[]|e2] t2]; [|reflexivity].
    destruct (deleteActiveChats uid t2) as [[[]|e3] t3]; [|reflexivity].
    destruct (deleteTypingIndicators uid t3) as [[[]|e4] t4]; reflexivity. }
  assert (Hhandler : _deleteUserAndData_handler uid db = db_delete usersT uid (purged uid db)).
  { unfold _deleteUserAndData_handler.
    now rewrite (bind_Ok _ _ _ _ _ (deleteOwnedData_run uid db Hwf)). }
  assert (Hwf' := Hwf).
  destruct Hwf' as [Hu Hm Hgm Hg Hac Hti].
  eexists _, _, _, (purged uid db).
  split; [apply (deleteMessages_run uid db Hm)|].
  cbn [rows set_rows messagesT].
  split; [apply (deleteMemberships_run uid (mkDb _ _ _ _ _ _ _ _) Hgm Hg)|].
  cbn [users messages groupMembers groups activeChats typingIndicators scheduled nextId].
  split; [apply (deleteActiveChats_run uid (mkDb _ _ _ _ _ _ _ _) Hac)|].
  cbn [rows set_rows activeChatsT
       users messages groupMembers groups activeChats typingIndicators scheduled nextId].
  split; [apply (deleteTypingIndicators_run uid (mkDb _ _ _ _ _ _ _ _) Hti)|].
  split; [exact Hhandler|].
  unfold purged at 1 2 3 4 5.
  cbn [users messages groupMembers groups activeChats typingIndicators].
  split; [reflexivity|]. split; [reflexivity|].
  split; [apply map_ext; intros g; apply left_group_explicit|].
  split; [reflexivity|]. split; [reflexivity|].
  split.
  { intros g n Hgin Hrow Hn Hcount.
    exists (left_group (memberships_of uid db) g). split.
    - unfold db_get, purged. cbn [rows groupsT groups].
      now rewrite (find_mapped _ (groups db) g (left_group_id (memberships_of uid db)) Hg Hgin).
    - rewrite left_group_explicit, Hrow. cbn [memberCount].
      rewrite Hcount, decrement_exact by lia. f_equal. lia. }
  split.
  { intros u Hget.
    destruct (get_present _ _ _ _ Hget) as [Hex _]. cbn [rows usersT] in Hex.
    assert (Hrun := deleteUserAndData_run uid u db Hwf Hget).
    unfold db_get in Hget. injection Hget as Hfind. cbn [rows usersT] in Hfind.
    split.
    { intros s Hs. unfold db_get. cbn [rows usersT]. cbn [In] in Hs.
      destruct Hs as [<-|[<-|[<-|[<-|[<-|[]]]]]]; cbn [users purged]; now rewrite Hfind. }
    exists (erased uid db).
    split.
    { unfold db_delete. cbn [rows set_rows usersT users purged]. now rewrite Hex. }
    split; [exact Hrun|].
    split.
    { unfold db_get, erased. cbn [rows usersT users]. now rewrite find_filtered_out. }
    repeat split. }
  intros Hget.
  unfold db_get in Hget. injection Hget as Hfind. cbn [rows usersT] in Hfind.
  apply find_absent in Hfind.
  assert (Hthrow : _deleteUserAndData_handler uid db
                   = (Err "Delete on nonexistent document ID", purged uid db))
    by now apply handler_absent.
  split; [exact Hthrow|].
  unfold _deleteUserAndData, internalMutation. eapply mutation_Err. exact Hthrow.
Qed.

Lemma deleteUserAndData_cascade_witness :
  exists final,
    _deleteUserAndData 1 sample = (Ok tt, final) /\
    db_get usersT 1 final = (Ok None, final) /\
    messages final = [mkMessage 11 2 (Some 1) None "hi alice" false] /\
    groups final = [mkGroup 30 "general" (js_number 1)].
Proof.
  destruct (deleteUserAndData_cascade 1 sample sample_wf)
    as (_ & s1 & s2 & s3 & s4 & _ & _ & _ & _ & _ & Hmsgs & _ & Hgroups & _ & _ & _ & Hknown & _).
  destruct (Hknown alice eq_refl)
    as (_ & final & _ & Hrun & Hgone & _ & Hm & _ & Hg & _).
  exists final. split; [exact Hrun|]. split; [exact Hgone|].
  rewrite Hm, Hmsgs, Hg, Hgroups. split; reflexivity.
Defined.

(** C1 as stated fails for a [userId] the users table has no document for:
    the run throws at the last step and the messages, membership rows,
    active chats and typing indicators that name the id are all still there. *)
Lemma deleteUserAndData_unknown_user_deletes_nothing :
  wf orphans /\
  db_get usersT 9 orphans = (Ok None, orphans) /\
  _deleteUserAndData 9 orphans = (Err "Delete on nonexistent document ID", orphans) /\
  exists m member chat indicator,
    In m (messages (snd (_deleteUserAndData 9 orphans))) /\ senderId m = 9 /\
    In member (groupMembers (snd (_deleteUserAndData 9 orphans))) /\ userId member = 9 /\
    In chat (activeChats (snd (_deleteUserAndData 9 orphans))) /\ userId chat = 9 /\
    In indicator (typingIndicators (snd (_deleteUserAndData 9 orphans))) /\
    userId indicator = 9.
Proof.
  split; [split; distinct_ids|].
  split; [reflexivity|]. split; [reflexivity|].
  exists (mkMessage 10 9 (Some 1) None "hello" false), (mkGroupMember 20 9 30),
         (mkActiveChat 40 9 "alice"), (mkTypingIndicator 50 9 "alice" true).
  vm_compute. intuition.
Qed.

Lemma filter_again {A} (p : A -> bool) (l : list A) :
  filter p (filter p l) = filter p l.
Proof.
  rewrite filter_twice. apply filter_ext. intros a. now destruct (p a).
Qed.

Lemma filter_complement {A} (p : A -> bool) (l : list A) :
  filter p (filter (fun x => negb (p x)) l) = [].
Proof.
  rewrite filter_twice. induction l as [|a l IH]; [reflexivity|].
  cbn [filter]. now destruct (p a).
Qed.

Lemma existsb_filtered_out {A} (p : A -> bool) (l : list A) :
  existsb p (filter (fun x => negb (p x)) l) = false.
Proof.
  induction l as [|a l IH]; [reflexivity|].
  cbn [filter]. destruct (p a) eqn:Hp; cbn [negb existsb]; [assumption|].
  now rewrite Hp.
Qed.

(** Nothing the user owns is left to delete after a run. *)
Lemma purged_erased (uid : Id) (db : Db) : purged uid (erased uid db) = erased uid db.
Proof.
  unfold purged, erased, memberships_of, not_sent_by, not_owned_by.
  cbn [users messages groupMembers groups activeChats typingIndicators scheduled nextId].
  rewrite !filter_again.
  rewrite (filter_complement (fun m : GroupMember => Nat.eqb (userId m) uid)).
  f_equal. rewrite map_map. apply map_ext. intros g. apply left_group_nil.
Qed.

(** C2 (as amended): two runs in succession leave the store as one run leaves
    it, but the second run does not complete: it finds nothing to delete, the
    store rejects the delete of the absent user document, and the run fails
    with the store as the first run left it.  A run on a user the store does
    not know fails in the same way and changes nothing. *)
Theorem deleteUserAndData_twice (uid : Id) (db : Db) :
  wf db ->
  snd (_deleteUserAndData uid (snd (_deleteUserAndData uid db)))
  = snd (_deleteUserAndData uid db)
  /\ (forall u,
        db_get usersT uid db = (Ok (Some u), db) ->
        exists once,
          _deleteUserAndData uid db = (Ok tt, once) /\
          _deleteUserAndData_handler uid once
          = (Err "Delete on nonexistent document ID", once) /\
          _deleteUserAndData uid once = (Err "Delete on nonexistent document ID", once))
  /\ (db_get usersT uid db = (Ok None, db) ->
      _deleteUserAndData uid db = (Err "Delete on nonexistent document ID", db)).
Proof.
  intros Hwf.
  assert (Habsent : forall s, wf s -> existsb (has_id uid) (users s) = false ->
            _deleteUserAndData uid s = (Err "Delete on nonexistent document ID", s)).
  { intros s Hs Hex. unfold _deleteUserAndData, internalMutation.
    eapply mutation_Err. now apply handler_absent. }
  assert (Hgone : existsb (has_id uid) (users (erased uid db)) = false)
    by apply existsb_filtered_out.
  assert (Hsecond : _deleteUserAndData_handler uid (erased uid db)
                    = (Err "Delete on nonexistent document ID", erased uid db)).
  { rewrite handler_absent; auto using erased_wf. now rewrite purged_erased. }
  split; [|split].
  - destruct (existsb (has_id uid) (users db)) eqn:Hex.
    + unfold _deleteUserAndData at 2 3, internalMutation.
      rewrite (mutation_Ok _ _ _ _ (handler_present uid db Hwf Hex)). cbn [snd].
      now rewrite Habsent; auto using erased_wf.
    + rewrite (Habsent db Hwf Hex). cbn [snd]. now rewrite (Habsent db Hwf Hex).
  - intros u Hget. exists (erased uid db).
    split; [now apply (deleteUserAndData_run uid u)|].
    split; [exact Hsecond|].
    apply Habsent; auto using erased_wf.
  - intros Hget. apply Habsent; [assumption|].
    unfold db_get in Hget. injection Hget as Hfind. cbn [rows usersT] in Hfind.
    apply not_true_is_false. intros Hex.
    apply existsb_exists in Hex. destruct Hex as [x [Hin Hx]].
    now rewrite (find_none _ _ Hfind x Hin) in Hx.
Qed.

Lemma deleteUserAndData_twice_witness :
  exists once,
    _deleteUserAndData 1 sample = (Ok tt, once) /\
    _deleteUserAndData 1 once = (Err "Delete on nonexistent document ID", once).
Proof.
  destruct (deleteUserAndData_twice 1 sample sample_wf) as (_ & Hknown & _).
  destruct (Hknown alice eq_refl) as (once & Hfirst & _ & Hsecond).
  exists once. split; assumption.
Defined.

(** C2 as stated fails: the second of two runs on a user of the sample store
    does not complete without error. *)
Lemma deleteUserAndData_second_run_fails :
  exists once,
    _deleteUserAndData 1 sample = (Ok tt, once) /\
    ~ (exists twice, _deleteUserAndData 1 once = (Ok tt, twice)).
Proof.
  eexists. split; [reflexivity|].
  intros [twice Hrun]. vm_compute in Hrun. discriminate.
Qed.

(** ** Member counts *)

Lemma existsb_pointwise {A} (p q : A -> bool) (l : list A) :
  (forall x, p x = q x) -> existsb p l = existsb q l.
Proof.
  intros Hpq. induction l as [|a l IH]; [reflexivity|].
  cbn [existsb]. now rewrite Hpq, IH.
Qed.

Lemma filter_nothing {A} (p : A -> bool) (l : list A) :
  (forall x, In x l -> p x = false) -> filter p l = [].
Proof.
  induction l as [|a l IH]; intros Hall; [reflexivity|].
  cbn [filter]. rewrite (Hall a (or_introl eq_refl)).
  apply IH. intros x Hx. apply Hall. now right.
Qed.

Lemma length_filter_split {A} (p q : A -> bool) (l : list A) :
  List.length (filter p l)
  = List.length (filter p (filter q l)) + List.length (filter p (filter (fun x => negb (q x)) l)).
Proof.
  induction l as [|a l IH]; [reflexivity|].
  cbn [filter]. destruct (q a); cbn [negb filter]; destruct (p a); cbn [List.length]; lia.
Qed.

Lemma one_match {A} (key : A -> Id) (i : Id) (l : list A) :
  NoDup (map key l) ->
  existsb (fun x => Nat.eqb (key x) i) l = true ->
  List.length (filter (fun x => Nat.eqb (key x) i) l) = 1.
Proof.
  induction l as [|a l IH]; intros Hnd Hex; [discriminate|].
  inversion Hnd as [|? ? Hnotin Hnd']; subst.
  cbn [existsb filter] in *. destruct (Nat.eqb (key a) i) eqn:Ha.
  - apply Nat.eqb_eq in Ha. subst i. cbn [List.length]. f_equal.
    rewrite filter_nothing; [reflexivity|].
    intros x Hx. apply Nat.eqb_neq. intros Heq. apply Hnotin.
    rewrite <- Heq. now apply in_map.
  - now apply IH.
Qed.

Lemma filter_shorter {A} (p : A -> bool) (l : list A) :
  List.length (filter p l) <= List.length l.
Proof.
  induction l as [|a l IH]; [apply le_n|].
  cbn [filter]. destruct (p a); cbn [List.length]; lia.
Qed.

(** C3 (as amended): after a run on a user the store knows, no membership row
    has the user's id.  When, before the run, every group's count was the
    number of its membership rows, the table had at most 2^53 membership rows
    and the user had at most one membership row per group, every group's
    count is the number of its remaining rows. *)
Theorem no_orphaned_memberships (uid : Id) (u : User) (db : Db) :
  wf db ->
  db_get usersT uid db = (Ok (Some u), db) ->
  exists db',
    _deleteUserAndData uid db = (Ok tt, db') /\
    (forall m, In m (groupMembers db') -> userId m <> uid) /\
    (counts_accurate db ->
     (Z.of_nat (List.length (groupMembers db)) <= 2 ^ 53)%Z ->
     NoDup (map member_groupId (memberships_of uid db)) ->
     counts_accurate db').
Proof.
  intros Hwf Hget. exists (erased uid db).
  split; [now apply (deleteUserAndData_run uid u)|]. split.
  - intros m Hm. unfold erased in Hm. cbn [groupMembers] in Hm.
    apply filter_In in Hm. destruct Hm as [_ Hm].
    unfold not_owned_by in Hm. now apply negb_true_iff, Nat.eqb_neq in Hm.
  - intros Hacc Hsize Hone g' Hg'. unfold erased in Hg'. cbn [groups] in Hg'.
    apply in_map_iff in Hg'. destruct Hg' as [g [<- Hg]].
    rewrite left_group_id. specialize (Hacc g Hg).
    assert (Hrows := filter_shorter (fun m => Nat.eqb (member_groupId m) (_id g))
                                    (groupMembers db)).
    unfold rows_of_group in *. unfold erased. cbn [groupMembers].
    rewrite (length_filter_split _ (fun m => Nat.eqb (userId m) uid)) in Hacc, Hrows.
    fold (memberships_of uid db) in Hacc, Hrows.
    unfold not_owned_by.
    set (rest := List.length (filter (fun m => Nat.eqb (member_groupId m) (_id g))
                   (filter (fun m => negb (Nat.eqb (userId m) uid)) (groupMembers db)))) in *.
    rewrite left_group_explicit. unfold has_row_in.
    destruct (existsb (fun m => Nat.eqb (member_groupId m) (_id g)) (memberships_of uid db))
      eqn:Hex.
    + rewrite (one_match member_groupId (_id g) _ Hone Hex) in Hacc, Hrows.
      cbn [memberCount]. rewrite Hacc, decrement_exact by lia. f_equal. lia.
    + rewrite filter_nothing in Hacc.
      * exact Hacc.
      * intros x Hx. destruct (Nat.eqb (member_groupId x) (_id g)) eqn:Hx'; [|reflexivity].
        assert (Hcontra : existsb (fun m => Nat.eqb (member_groupId m) (_id g))
                            (memberships_of uid db) = true)
          by (apply existsb_exists; eauto).
        congruence.
Qed.

Lemma sample_counts_accurate : counts_accurate sample.
Proof.
  intros g [<-|[]]. reflexivity.
Qed.

Lemma no_orphaned_memberships_witness :
  exists db',
    _deleteUserAndData 1 sample = (Ok tt, db') /\
    (forall m, In m (groupMembers db') -> userId m <> 1) /\
    counts_accurate db'.
Proof.
  destruct (no_orphaned_memberships 1 alice sample sample_wf eq_refl)
    as (db' & Hrun & Hnone & Hcounts).
  exists db'. split; [exact Hrun|]. split; [exact Hnone|].
  apply Hcounts.
  - exact sample_counts_accurate.
  - cbn. lia.
  - cbn. repeat constructor; cbn; intuition discriminate.
Defined.

(** C3 as stated fails: after the run the group claims four members and has
    no membership row. *)
Lemma stale_count_stays_stale :
  wf stale_count /\
  exists db',
    _deleteUserAndData 1 stale_count = (Ok tt, db') /\
    ~ counts_accurate db'.
Proof.
  split; [split; distinct_ids|].
  eexists. split; [reflexivity|].
  intros Hacc.
  specialize (Hacc (mkGroup 30 "general" (js_number 4)) (or_introl eq_refl)).
  discriminate Hacc.
Qed.

(** The second condition of C3 is needed too: with two membership rows in
    one group, both callbacks read the count before either patches it. *)
Example interleaved_callbacks_decrement_once :
  deleteMemberships 1 twice_member
  = (Ok tt, mkDb [alice] [] [] [mkGroup 30 "general" (js_number 1)] [] [] [] 100).
Proof. reflexivity. Qed.

Example in_turn_would_decrement_twice :
  deleteMemberships_in_turn 1 twice_member
  = (Ok tt, mkDb [alice] [] [] [mkGroup 30 "general" (js_number 0)] [] [] [] 100).
Proof. reflexivity. Qed.

(** C4: for distinct users [U] and [V], a run on [U] deletes every message
    [U] sent, private or to a group, and leaves every message [V] sent to [U]
    in the table as it was. *)
Theorem sender_only_purge (U V : Id) (u : User) (db : Db) :
  wf db ->
  db_get usersT U db = (Ok (Some u), db) ->
  U <> V ->
  exists db',
    _deleteUserAndData U db = (Ok tt, db') /\
    (forall m, In m (messages db) -> senderId m = U ->
       ~ In m (messages db') /\ db_get messagesT (_id m) db' = (Ok None, db')) /\
    (forall m, In m (messages db) -> senderId m = V -> recipientId m = Some U ->
       In m (messages db') /\ db_get messagesT (_id m) db' = (Ok (Some m), db')).
Proof.
  intros Hwf Hget Hne. exists (erased U db).
  split; [now apply (deleteUserAndData_run U u)|].
  assert (Hu' : unique_ids (messages (erased U db))) by (apply erased_wf, Hwf).
  destruct Hwf as [_ Hm _ _ _ _].
  unfold db_get. cbn [rows messagesT]. unfold erased in *. cbn [messages] in *.
  split.
  - intros m Hin Hsender. split.
    + intros Hin'. apply filter_In in Hin'. destruct Hin' as [_ Hkept].
      unfold not_sent_by in Hkept. rewrite Hsender, Nat.eqb_refl in Hkept. discriminate.
    + f_equal. f_equal.
      destruct (find (has_id (_id m)) (filter (not_sent_by U) (messages db)))
        as [m'|] eqn:Hf; [|reflexivity].
      apply find_some in Hf. destruct Hf as [Hin' Hid].
      apply filter_In in Hin'. destruct Hin' as [Hin' Hkept].
      apply Nat.eqb_eq in Hid.
      assert (m' = m) by (apply (NoDup_map_eq _id (messages db) m' m Hm Hin' Hin Hid)).
      subst m'. unfold not_sent_by in Hkept. rewrite Hsender, Nat.eqb_refl in Hkept. discriminate.
  - intros m Hin Hsender _.
    assert (Hin' : In m (filter (not_sent_by U) (messages db))).
    { apply filter_In. split; [assumption|].
      unfold not_sent_by. rewrite Hsender. apply negb_true_iff, Nat.eqb_neq. congruence. }
    split; [assumption|].
    now rewrite (find_unique _ m Hu' Hin').
Qed.

Lemma sender_only_purge_witness :
  exists db',
    _deleteUserAndData 1 sample = (Ok tt, db') /\
    messages db' = [mkMessage 11 2 (Some 1) None "hi alice" false].
Proof.
  destruct (sender_only_purge 1 2 alice sample sample_wf eq_refl) as (db' & Hrun & _ & _).
  - discriminate.
  - exists db'. split; [exact Hrun|].
    vm_compute in Hrun. injection Hrun as <-. reflexivity.
Defined.

Lemma get_left_group (ms : list GroupMember) (g : Group) (gs : list Group) :
  unique_ids gs -> In g gs ->
  find (has_id (_id g)) (map (left_group ms) gs) = Some (left_group ms g).
Proof.
  intros Hu Hin. rewrite <- (left_group_id ms g). apply find_unique.
  - unfold unique_ids. now rewrite left_groups_ids.
  - now apply in_map.
Qed.

(** C5 (as amended): for every group a membership row of the user points
    at, a run on the user writes [Math.max(0, memberCount - 1)], computed on
    doubles from the count the group had before the run.  The count written
    is never negative; a count of zero stays zero; an integer count from 1
    to 2^53 goes down by exactly one; a count below zero is raised to zero,
    and NaN stays NaN. *)
Theorem memberCount_floor (uid : Id) (u : User) (db : Db) (m : GroupMember) (g : Group) :
  wf db ->
  db_get usersT uid db = (Ok (Some u), db) ->
  In m (groupMembers db) ->
  userId m = uid ->
  db_get groupsT (member_groupId m) db = (Ok (Some g), db) ->
  exists db' g',
    _deleteUserAndData uid db = (Ok tt, db') /\
    db_get groupsT (_id g) db' = (Ok (Some g'), db') /\
    name g' = name g /\
    memberCount g' = Math_max [js_number 0; minus (memberCount g) (js_number 1)] /\
    not_negative (memberCount g') /\
    (memberCount g = js_number 0 -> memberCount g' = js_number 0) /\
    (forall n, (1 <= n <= 2 ^ 53)%Z ->
       memberCount g = js_number n -> memberCount g' = js_number (n - 1)) /\
    (SpecFloat.SFltb (memberCount g) (js_number 0) = true -> memberCount g' = js_number 0) /\
    (memberCount g = NaN -> memberCount g' = NaN).
Proof.
  intros Hwf Hget Hm Huid Hgroup.
  destruct (get_present _ _ _ _ Hgroup) as (_ & Hg & Hgid). cbn [rows groupsT] in Hg.
  exists (erased uid db), (left_group (memberships_of uid db) g).
  split; [now apply (deleteUserAndData_run uid u)|].
  assert (Hin : has_row_in uid db g = true).
  { apply existsb_exists. exists m. split.
    - apply filter_In. split; [assumption|]. now apply Nat.eqb_eq.
    - apply Nat.eqb_eq. now rewrite Hgid. }
  split.
  { unfold db_get, erased. cbn [rows groupsT groups].
    now rewrite (get_left_group _ g (groups db) (wf_groups Hwf) Hg). }
  rewrite left_group_explicit, Hin. cbn [name memberCount].
  split; [reflexivity|]. split; [reflexivity|].
  split; [apply Math_max_zero|].
  split; [intros ->; reflexivity|].
  split.
  { intros n Hn ->. rewrite decrement_exact by lia. f_equal. lia. }
  split; [apply decrement_negative|].
  intros ->. reflexivity.
Qed.

Lemma memberCount_floor_witness :
  exists db' g',
    _deleteUserAndData 1 sample = (Ok tt, db') /\
    db_get groupsT 30 db' = (Ok (Some g'), db') /\
    memberCount g' = js_number 1.
Proof.
  destruct (memberCount_floor 1 alice sample (mkGroupMember 20 1 30)
              (mkGroup 30 "general" (js_number 2))
              sample_wf eq_refl (or_introl eq_refl) eq_refl eq_refl)
    as (db' & g' & Hrun & Hget & _ & _ & _ & _ & Hcount & _).
  exists db', g'. split; [exact Hrun|]. split; [exact Hget|].
  apply (Hcount 2%Z); [lia | reflexivity].
Defined.

(** C5 as stated fails: the count is a double, and from 2^53 + 2 the
    subtraction rounds to 2^53, so the count goes down by two. *)
Lemma memberCount_drops_by_two :
  wf (counting (js_number (2 ^ 53 + 2))) /\
  integer_of (js_number (2 ^ 53 + 2)) = Some (2 ^ 53 + 2)%Z /\
  exists db' g',
    _deleteUserAndData 1 (counting (js_number (2 ^ 53 + 2))) = (Ok tt, db') /\
    db_get groupsT 30 db' = (Ok (Some g'), db') /\
    integer_of (memberCount g') = Some (2 ^ 53)%Z.
Proof.
  split; [split; distinct_ids|].
  split; [vm_compute; reflexivity|].
  eexists _, _. split; [vm_compute; reflexivity|].
  split; vm_compute; reflexivity.
Qed.

Example memberCount_floor_at_zero :
  _deleteUserAndData 1 empty_count
  = (Ok tt, mkDb [] [] [] [mkGroup 30 "general" (js_number 0)] [] [] [] 100).
Proof. reflexivity. Qed.

(** A count of one half goes to zero, a count of [-3] is raised to zero. *)
Example memberCount_floor_of_a_fraction :
  _deleteUserAndData 1 (counting (SpecFloat.S754_finite false 4503599627370496 (-53)))
  = (Ok tt, mkDb [] [] [] [mkGroup 30 "general" (js_number 0)] [] [] [] 100).
Proof. reflexivity. Qed.

Example memberCount_floor_below_zero :
  _deleteUserAndData 1 (counting (SpecFloat.SFopp (js_number 3)))
  = (Ok tt, mkDb [] [] [] [mkGroup 30 "general" (js_number 0)] [] [] [] 100).
Proof. reflexivity. Qed.




(** ** Presence *)

Lemma schedule_deletions (l : list User) :
  forall db,
    Promise_all
      (map (fun user => scheduler_runAfter 0 (internal_users__deleteUserAndData (_id user))) l) db
    = (Ok tt,
       mkDb (users db) (messages db) (groupMembers db) (groups db) (activeChats db)
            (typingIndicators db) (scheduled db ++ map deletion_of l) (nextId db)).
Proof.
  induction l as [|a l IH]; intros db.
  - cbn. unfold ret. rewrite app_nil_r. now destruct db.
  - cbn [map Promise_all]. unfold bind, scheduler_runAfter at 1.
    rewrite IH. cbn [users messages groupMembers groups activeChats
                     typingIndicators scheduled nextId].
    now rewrite <- app_assoc.
Qed.

Lemma cleanupOfflineUsers_run (now : Millis) (db : Db) :
  cleanupOfflineUsers now db
  = (Ok tt,
     mkDb (users db) (messages db) (groupMembers db) (groups db) (activeChats db)
          (typingIndicators db)
          (scheduled db
           ++ map deletion_of
                (filter (fun u => lastSeen u <? now - IDLE_THRESHOLD_MS)%Z (users db)))
          (nextId db)).
Proof.
  unfold cleanupOfflineUsers, internalMutation. apply mutation_Ok.
  unfold bind, db_collect. cbn [rows usersT]. apply schedule_deletions.
Qed.

(** Who [getOnlineUsers] lists: the users flagged online that were seen less
    than a minute before the query. *)
Lemma listed_online (now : Millis) (u : User) (db : Db) :
  unique_ids (users db) ->
  In u (users db) ->
  (exists o, In o (getOnlineUsers now db) /\ ou_id o = _id u)
  <-> isOnline u = true /\ (now - lastSeen u < ONLINE_WINDOW_MS)%Z.
Proof.
  intros Hu Hin. unfold getOnlineUsers. split.
  - intros [o [Ho Hid]]. apply in_map_iff in Ho. destruct Ho as [x [<- Hx]].
    apply filter_In in Hx. destruct Hx as [Hx Hp]. cbn [ou_id] in Hid.
    assert (x = u) by (apply (NoDup_map_eq _id (users db) x u Hu Hx Hin Hid)). subst x.
    apply andb_true_iff in Hp. destruct Hp as [Hon Hseen].
    apply eqb_prop in Hon. apply Z.gtb_lt in Hseen. split; [assumption | lia].
  - intros [Hon Hseen].
    exists (mkOnlineUser (_id u) (username u) (isOnline u) (lastSeen u)).
    split; [|reflexivity].
    apply in_map_iff. exists u. split; [reflexivity|].
    apply filter_In. split; [assumption|].
    rewrite Hon. cbn. apply Z.gtb_lt. lia.
Qed.

(** Whose deletion [cleanupOfflineUsers] schedules: the users last seen more
    than five minutes before the sweep, whatever their online flag. *)
Lemma swept_idle (now : Millis) (u : User) (db : Db) :
  unique_ids (users db) ->
  In u (users db) ->
  (exists j, In j (map deletion_of
                     (filter (fun x => lastSeen x <? now - IDLE_THRESHOLD_MS)%Z (users db)))
             /\ target j = internal_users__deleteUserAndData (_id u))
  <-> (now - lastSeen u > IDLE_THRESHOLD_MS)%Z.
Proof.
  intros Hu Hin. split.
  - intros [j [Hj Htarget]]. apply in_map_iff in Hj. destruct Hj as [x [<- Hx]].
    apply filter_In in Hx. destruct Hx as [Hx Hp].
    cbn [deletion_of target] in Htarget. injection Htarget as Hid.
    assert (x = u) by (apply (NoDup_map_eq _id (users db) x u Hu Hx Hin Hid)). subst x.
    apply Z.ltb_lt in Hp. lia.
  - intros Hidle. exists (deletion_of u). split; [|reflexivity].
    apply in_map. apply filter_In. split; [assumption|]. apply Z.ltb_lt. lia.
Qed.

(** C6: a user flagged online and last seen 90 seconds before the query is
    not in the result of [getOnlineUsers] (window of 60000 ms), and a sweep at
    that time schedules no deletion for that user and leaves the user row as
    it is (threshold of 300000 ms). *)
Theorem presence_windows (now : Millis) (u : User) (db : Db) :
  unique_ids (users db) ->
  In u (users db) ->
  isOnline u = true ->
  lastSeen u = (now - 90000)%Z ->
  (forall o, In o (getOnlineUsers now db) -> ou_id o <> _id u) /\
  (exists db' jobs,
     cleanupOfflineUsers now db = (Ok tt, db') /\
     scheduled db' = scheduled db ++ jobs /\
     (forall j, In j jobs -> target j <> internal_users__deleteUserAndData (_id u)) /\
     users db' = users db) /\
  ONLINE_WINDOW_MS = 60000%Z /\
  IDLE_THRESHOLD_MS = 300000%Z.
Proof.
  intros Hu Hin Hon Hseen. split; [|split; [|split; reflexivity]].
  - intros o Ho Hid.
    assert (Hlisted : exists o, In o (getOnlineUsers now db) /\ ou_id o = _id u) by eauto.
    apply (listed_online now u db Hu Hin) in Hlisted.
    unfold ONLINE_WINDOW_MS in Hlisted. lia.
  - eexists _, _. split; [apply cleanupOfflineUsers_run|].
    cbn [scheduled users]. split; [reflexivity|]. split; [|reflexivity].
    intros j Hj Htarget.
    assert (Hswept : exists j,
              In j (map deletion_of
                      (filter (fun x => lastSeen x <? now - IDLE_THRESHOLD_MS)%Z (users db)))
              /\ target j = internal_users__deleteUserAndData (_id u)) by eauto.
    apply (swept_idle now u db Hu Hin) in Hswept.
    unfold IDLE_THRESHOLD_MS in Hswept. lia.
Qed.

Lemma presence_windows_witness :
  (forall o, In o (getOnlineUsers 100000%Z lobby) -> ou_id o <> 4) /\
  exists db' jobs,
    cleanupOfflineUsers 100000%Z lobby = (Ok tt, db') /\
    scheduled db' = scheduled lobby ++ jobs /\
    (forall j, In j jobs -> target j <> internal_users__deleteUserAndData 4).
Proof.
  destruct (presence_windows 100000%Z dave lobby) as (Hlist & (db' & jobs & Hrun & Hs & Hj & _) & _).
  - distinct_ids.
  - now left.
  - reflexivity.
  - reflexivity.
  - split; [exact Hlist|]. exists db', jobs. repeat split; assumption.
Defined.

Example lobby_online_users :
  getOnlineUsers 100000%Z lobby = [mkOnlineUser 5 "erin" true 70000%Z].
Proof. reflexivity. Qed.

Example lobby_sweep :
  cleanupOfflineUsers 100000%Z lobby
  = (Ok tt, mkDb [dave; erin; frank] [] [] [] [] []
                 [mkJob 0 (internal_users__deleteUserAndData 6)] 100).
Proof. reflexivity. Qed.

(** ** [createUser] *)

Lemma holds_online_true (n : string) (u : User) :
  holds_online n u = true <-> username u = n /\ isOnline u = true.
Proof.
  unfold holds_online. rewrite andb_true_iff, String.eqb_eq.
  split; intros [H1 H2]; split; auto.
  - now apply eqb_prop.
  - rewrite H2. reflexivity.
Qed.

Lemma find_found {A} (p : A -> bool) (l : list A) :
  (exists x, In x l /\ p x = true) -> exists y, find p l = Some y.
Proof.
  intros [x [Hin Hp]]. destruct (find p l) as [y|] eqn:Hf; [eauto|].
  rewrite (find_none _ _ Hf x Hin) in Hp. discriminate.
Qed.

Lemma find_nothing {A} (p : A -> bool) (l : list A) :
  (forall x, In x l -> p x = false) -> find p l = None.
Proof.
  intros Hall. destruct (find p l) as [y|] eqn:Hf; [|reflexivity].
  apply find_some in Hf. destruct Hf as [Hin Hp].
  rewrite (Hall y Hin) in Hp. discriminate.
Qed.

Lemma createUser_taken (n sid : string) (now : Millis) (db : Db) :
  (exists u, In u (users db) /\ username u = n /\ isOnline u = true) ->
  createUser_handler n sid now db
  = (Err "Username is already taken by an online user", db).
Proof.
  intros [u [Hin Hheld]].
  destruct (find_found (holds_online n) (users db)) as [y Hy].
  { exists u. split; [assumption|]. now apply holds_online_true. }
  unfold createUser_handler, bind, db_first. cbn [rows usersT].
  fold (holds_online n). now rewrite Hy.
Qed.

Lemma createUser_free (n sid : string) (now : Millis) (db : Db) :
  (forall u, In u (users db) -> username u = n -> isOnline u = false) ->
  find (holds_online n) (users db) = None.
Proof.
  intros Hfree. apply find_nothing. intros x Hx.
  apply not_true_is_false. rewrite holds_online_true. intros [Hn Hon].
  rewrite (Hfree x Hx Hn) in Hon. discriminate.
Qed.

(** C7: [createUser] with a username that a user flagged online holds fails
    with the username-taken error; with a username that only users flagged
    offline hold, and a session that has no user, it succeeds and adds a row
    with that username and session, flagged online, last seen now. *)
Theorem online_uniqueness (n sid : string) (now : Millis) (db : Db) :
  ((exists u, In u (users db) /\ username u = n /\ isOnline u = true) ->
   createUser n sid now db = (Err "Username is already taken by an online user", db))
  /\
  ((forall u, In u (users db) -> username u = n -> isOnline u = false) ->
   (forall u, In u (users db) -> sessionId u <> sid) ->
   createUser n sid now db
   = (Ok (nextId db),
      mkDb (users db ++ [mkUser (nextId db) n sid true now])
           (messages db) (groupMembers db) (groups db) (activeChats db)
           (typingIndicators db) (scheduled db) (S (nextId db)))).
Proof.
  split.
  - intros Htaken. unfold createUser. eapply mutation_Err.
    now apply createUser_taken.
  - intros Hfree Hnew. unfold createUser. apply mutation_Ok.
    unfold createUser_handler, bind, db_first. cbn [rows usersT].
    fold (holds_online n). rewrite (createUser_free n sid now db Hfree).
    rewrite find_nothing; [reflexivity|].
    intros x Hx. apply String.eqb_neq. now apply Hnew.
Qed.

Lemma online_uniqueness_witness :
  createUser "bob" "s9" 5000%Z sample
  = (Err "Username is already taken by an online user", sample)
  /\ fst (createUser "carol" "s9" 5000%Z sample) = Ok 100.
Proof.
  destruct (online_uniqueness "bob" "s9" 5000%Z sample) as [Htaken _].
  destruct (online_uniqueness "carol" "s9" 5000%Z sample) as [_ Hfree].
  split.
  - apply Htaken. exists bob. cbn. tauto.
  - rewrite Hfree; [reflexivity | |].
    + intros u [<-|[<-|[<-|[]]]]; cbn; intros; first [discriminate | reflexivity].
    + intros u [<-|[<-|[<-|[]]]]; cbn; discriminate.
Defined.

(** C8 (as amended): when the session already has a user row and no user
    flagged online holds the requested username, [createUser] succeeds,
    sets that row's username, online flag and [lastSeen], adds no row, and
    returns that row's id. *)
Theorem resume_session (n sid : string) (now : Millis) (db : Db) (s : User) :
  unique_ids (users db) ->
  getCurrentUser sid db = Some s ->
  (forall u, In u (users db) -> username u = n -> isOnline u = false) ->
  exists db',
    createUser n sid now db = (Ok (_id s), db') /\
    db_get usersT (_id s) db' = (Ok (Some (mkUser (_id s) n sid true now)), db') /\
    map _id (users db') = map _id (users db) /\
    (forall x, In x (users db) -> _id x <> _id s -> In x (users db')).
Proof.
  intros Hu Hsession Hfree.
  unfold getCurrentUser in Hsession.
  destruct (find_some _ _ Hsession) as [Hin Hsid]. apply String.eqb_eq in Hsid.
  set (upd := fun x : User => mkUser (user_id x) n (sessionId x) true now).
  set (users' := map (fun x => if has_id (_id s) x then upd x else x) (users db)).
  exists (mkDb users' (messages db) (groupMembers db) (groups db) (activeChats db)
               (typingIndicators db) (scheduled db) (nextId db)).
  assert (Hids : map _id users' = map _id (users db)).
  { unfold users'. rewrite map_map. apply map_ext. intros x.
    now destruct (has_id (_id s) x). }
  split; [|split; [|split]].
  - unfold createUser. apply mutation_Ok.
    unfold createUser_handler, bind, db_first. cbn [rows usersT].
    fold (holds_online n). rewrite (createUser_free n sid now db Hfree).
    rewrite Hsession. unfold db_patch. cbn [rows set_rows usersT].
    assert (Hex : existsb (has_id (_id s)) (users db) = true).
    { apply existsb_exists. exists s. split; [assumption|]. apply Nat.eqb_refl. }
    now rewrite Hex.
  - unfold db_get. cbn [rows usersT users]. f_equal. f_equal.
    assert (Hs' : In (upd s) users').
    { unfold users'. apply in_map_iff. exists s. split; [|assumption].
      unfold has_id. now rewrite Nat.eqb_refl. }
    assert (Hu' : unique_ids users') by (unfold unique_ids; now rewrite Hids).
    rewrite <- Hsid. apply (find_unique users' (upd s) Hu' Hs').
  - exact Hids.
  - intros x Hx Hne. cbn [users]. unfold users'. apply in_map_iff. exists x.
    split; [|assumption].
    unfold has_id. apply Nat.eqb_neq in Hne. now rewrite Hne.
Qed.

Lemma resume_session_witness :
  exists db',
    createUser "carl" "s3" 5000%Z sample = (Ok 3, db') /\
    db_get usersT 3 db' = (Ok (Some (mkUser 3 "carl" "s3" true 5000%Z)), db').
Proof.
  destruct (resume_session "carl" "s3" 5000%Z sample carol) as (db' & Hrun & Hrow & _).
  - distinct_ids.
  - reflexivity.
  - intros u [<-|[<-|[<-|[]]]]; cbn; discriminate.
  - exists db'. split; assumption.
Defined.

(** C8 as stated fails: session "s1" has a user row (Alice), yet asking for the
    username that Bob, flagged online, holds is rejected. *)
Lemma resume_is_rejected_when_taken :
  getCurrentUser "s1" sample = Some alice /\
  ~ (exists i db', createUser "bob" "s1" 5000%Z sample = (Ok i, db')).
Proof.
  split; [reflexivity|].
  intros (i & db' & Hrun). vm_compute in Hrun. discriminate.
Qed.

(** C9: when a user row with the requested username is flagged online, be it
    the caller's own session's row, the handler throws the username-taken
    error with the store as it found it: no insert and no patch was made. *)
Theorem taken_before_any_write (n sid : string) (now : Millis) (db : Db) :
  (exists u, In u (users db) /\ username u = n /\ isOnline u = true) ->
  createUser_handler n sid now db
  = (Err "Username is already taken by an online user", db)
  /\ createUser n sid now db
     = (Err "Username is already taken by an online user", db).
Proof.
  intros Htaken. split.
  - now apply createUser_taken.
  - unfold createUser. eapply mutation_Err. now apply createUser_taken.
Qed.

(** Alice's own session asks for the name Alice's own row holds. *)
Lemma taken_before_any_write_witness :
  getCurrentUser "s1" sample = Some alice /\
  createUser_handler "alice" "s1" 5000%Z sample
  = (Err "Username is already taken by an online user", sample).
Proof.
  split; [reflexivity|].
  apply (taken_before_any_write "alice" "s1" 5000%Z sample).
  exists alice. cbn. tauto.
Defined.

(** ** [logoutUser], [updateOnlineStatus] *)

(** Logging out only schedules the deletion, to run at once, and writes no
    table. *)
Theorem logout_schedules_deletion (uid : Id) (db : Db) :
  logoutUser uid db
  = (Ok tt,
     mkDb (users db) (messages db) (groupMembers db) (groups db) (activeChats db)
          (typingIndicators db)
          (scheduled db ++ [mkJob 0 (internal_users__deleteUserAndData uid)])
          (nextId db)).
Proof. reflexivity. Qed.

(** A status update on a user the store knows sets the online flag as asked
    and [lastSeen] to the time of the call, and keeps the username and the
    session. *)
Theorem heartbeat_refreshes (uid : Id) (online : bool) (now : Millis) (u : User) (db : Db) :
  unique_ids (users db) ->
  db_get usersT uid db = (Ok (Some u), db) ->
  exists db',
    updateOnlineStatus uid online now db = (Ok tt, db') /\
    db_get usersT uid db'
    = (Ok (Some (mkUser uid (username u) (sessionId u) online now)), db') /\
    map _id (users db') = map _id (users db).
Proof.
  intros Hu Hget. destruct (get_present _ _ _ _ Hget) as (Hex & Hin & Hid).
  cbn [rows usersT] in Hex, Hin.
  set (upd := fun x : User => mkUser (user_id x) (username x) (sessionId x) online now).
  set (users' := map (fun x => if has_id uid x then upd x else x) (users db)).
  assert (Hids : map _id users' = map _id (users db)).
  { unfold users'. rewrite map_map. apply map_ext. intros x.
    now destruct (has_id uid x). }
  exists (mkDb users' (messages db) (groupMembers db) (groups db) (activeChats db)
               (typingIndicators db) (scheduled db) (nextId db)).
  split; [|split].
  - unfold updateOnlineStatus. apply mutation_Ok.
    unfold db_patch. cbn [rows set_rows usersT]. now rewrite Hex.
  - unfold db_get. cbn [rows usersT users]. f_equal. f_equal.
    assert (Hin' : In (upd u) users').
    { unfold users'. apply in_map_iff. exists u. split; [|assumption].
      unfold has_id. rewrite Hid. now rewrite Nat.eqb_refl. }
    assert (Hu' : unique_ids users') by (unfold unique_ids; now rewrite Hids).
    rewrite <- Hid at 1. rewrite <- Hid.
    apply (find_unique users' (upd u) Hu' Hin').
  - exact Hids.
Qed.

Lemma heartbeat_refreshes_witness :
  exists db',
    updateOnlineStatus 3 true 7000%Z sample = (Ok tt, db') /\
    db_get usersT 3 db' = (Ok (Some (mkUser 3 "carol" "s3" true 7000%Z)), db').
Proof.
  destruct (heartbeat_refreshes 3 true 7000%Z carol sample) as (db' & Hrun & Hrow & _).
  - distinct_ids.
  - reflexivity.
  - exists db'. split; assumption.
Defined.

(** * Further properties of the module *)

(** ** [createUser] and the queries *)

Lemma find_in_appended {A} (p : A -> bool) (l : list A) (x : A) :
  find p l = None -> p x = true -> find p (l ++ [x]) = Some x.
Proof.
  induction l as [|a l IH]; cbn [find app]; intros Hnone Hx.
  - now rewrite Hx.
  - destruct (p a); [discriminate | now apply IH].
Qed.

Lemma find_in_patched (sid : string) (upd : User -> User) (l : list User) (s : User) :
  (forall x, sessionId (upd x) = sessionId x) ->
  find (fun u => String.eqb (sessionId u) sid) l = Some s ->
  find (fun u => String.eqb (sessionId u) sid) (patched (_id s) upd l) = Some (upd s).
Proof.
  intros Hkeep. unfold patched.
  induction l as [|a l IH]; cbn [find map]; intros Hfind; [discriminate|].
  destruct (String.eqb (sessionId a) sid) eqn:Ha.
  - injection Hfind as ->. unfold has_id. rewrite Nat.eqb_refl, Hkeep. now rewrite Ha.
  - destruct (has_id (_id s) a); [rewrite Hkeep|]; rewrite Ha; now apply IH.
Qed.

(** How a call of [createUser] that returns an id got there. *)
Lemma createUser_Ok (n sid : string) (now : Millis) (db : Db) (i : Id) (db' : Db) :
  createUser n sid now db = (Ok i, db') ->
  find (holds_online n) (users db) = None /\
  ((exists s,
      getCurrentUser sid db = Some s /\ i = _id s /\
      db' = mkDb (patched (_id s) (resumed n now) (users db))
                 (messages db) (groupMembers db) (groups db) (activeChats db)
                 (typingIndicators db) (scheduled db) (nextId db))
   \/
   (getCurrentUser sid db = None /\ i = nextId db /\
    db' = mkDb (users db ++ [mkUser (nextId db) n sid true now])
               (messages db) (groupMembers db) (groups db) (activeChats db)
               (typingIndicators db) (scheduled db) (S (nextId db)))).
Proof.
  unfold createUser, mutation, createUser_handler, bind, db_first, getCurrentUser.
  cbn [rows usersT]. fold (holds_online n).
  destruct (find (holds_online n) (users db)) as [taken|]; [discriminate|].
  destruct (find (fun u => String.eqb (sessionId u) sid) (users db)) as [s|] eqn:Hs.
  - unfold db_patch. cbn [rows set_rows usersT].
    assert (Hex : existsb (has_id (_id s)) (users db) = true).
    { apply find_some in Hs. apply existsb_exists. exists s.
      split; [tauto | apply Nat.eqb_refl]. }
    rewrite Hex. unfold ret. intros Heq. injection Heq as <- <-.
    split; [reflexivity|]. left. exists s. repeat split.
  - unfold db_insert_user. intros Heq. injection Heq as <- <-.
    split; [reflexivity|]. right. repeat split.
Qed.

(** The row a successful [createUser] leaves for the session. *)
Lemma created_row (n sid : string) (now : Millis) (db : Db) (i : Id) (db' : Db) :
  createUser n sid now db = (Ok i, db') ->
  getCurrentUser sid db' = Some (mkUser i n sid true now).
Proof.
  intros Hrun. destruct (createUser_Ok n sid now db i db' Hrun) as [_ [Hres|Hnew]].
  - destruct Hres as (s & Hs & -> & ->). unfold getCurrentUser in *. cbn [users].
    rewrite (find_in_patched sid (resumed n now) (users db) s (fun _ => eq_refl) Hs).
    apply find_some in Hs. destruct Hs as [_ Hsid]. apply String.eqb_eq in Hsid.
    unfold resumed. now rewrite Hsid.
  - destruct Hnew as (Hnone & -> & ->). unfold getCurrentUser in *. cbn [users].
    apply find_in_appended; [assumption|]. cbn. apply String.eqb_refl.
Qed.

(** After [createUser] returned an id, [getCurrentUser] with the same session
    returns the row with that id, the requested username, flagged online and
    last seen at the time of the call. *)
Theorem createUser_then_getCurrentUser
        (n sid : string) (now : Millis) (db : Db) (i : Id) (db' : Db) :
  createUser n sid now db = (Ok i, db') ->
  exists u,
    getCurrentUser sid db' = Some u /\
    _id u = i /\ username u = n /\ sessionId u = sid /\
    isOnline u = true /\ lastSeen u = now.
Proof.
  intros Hrun. exists (mkUser i n sid true now).
  split; [now apply (created_row n sid now db)|]. repeat split.
Qed.

Lemma createUser_then_getCurrentUser_witness :
  exists u, getCurrentUser "s9" (snd (createUser "zoe" "s9" 5000%Z sample)) = Some u
            /\ _id u = 100.
Proof.
  destruct (createUser_then_getCurrentUser "zoe" "s9" 5000%Z sample 100
              (snd (createUser "zoe" "s9" 5000%Z sample)) eq_refl)
    as (u & Hget & Hid & _).
  exists u. split; assumption.
Defined.

(** After [createUser] returned an id, [getOnlineUsers] lists that user, with
    the requested username, at every time from the call until a minute after
    it. *)
Theorem createUser_then_listed
        (n sid : string) (now t : Millis) (db : Db) (i : Id) (db' : Db) :
  createUser n sid now db = (Ok i, db') ->
  (now <= t < now + ONLINE_WINDOW_MS)%Z ->
  In (mkOnlineUser i n true now) (getOnlineUsers t db').
Proof.
  intros Hrun Ht. assert (Hrow := created_row n sid now db i db' Hrun).
  unfold getCurrentUser in Hrow. apply find_some in Hrow. destruct Hrow as [Hin _].
  unfold getOnlineUsers. apply in_map_iff. exists (mkUser i n sid true now).
  split; [reflexivity|]. apply filter_In. split; [assumption|].
  cbn. apply Z.gtb_lt. lia.
Qed.

Lemma createUser_then_listed_witness :
  In (mkOnlineUser 100 "zoe" true 5000%Z)
     (getOnlineUsers 64999%Z (snd (createUser "zoe" "s9" 5000%Z sample))).
Proof.
  apply (createUser_then_listed "zoe" "s9" 5000%Z 64999%Z sample 100 _ eq_refl).
  unfold ONLINE_WINDOW_MS. lia.
Defined.

Lemma not_held_online (n : string) (l : list User) (x : User) :
  find (holds_online n) l = None -> In x l -> isOnline x = true -> username x <> n.
Proof.
  intros Hnone Hin Hon Hname.
  assert (Hheld : holds_online n x = true) by (now apply holds_online_true).
  rewrite (find_none _ _ Hnone x Hin) in Hheld. discriminate.
Qed.

Lemma in_patched {D} `{Doc D} (i : Id) (upd : D -> D) (l : list D) (x : D) :
  In x (patched i upd l) ->
  (exists x0, In x0 l /\ _id x0 = i /\ x = upd x0) \/ (In x l /\ _id x <> i).
Proof.
  unfold patched. intros Hin. apply in_map_iff in Hin. destruct Hin as [x0 [Hx Hin]].
  unfold has_id in Hx. destruct (Nat.eqb (_id x0) i) eqn:Hid.
  - left. exists x0. apply Nat.eqb_eq in Hid. auto.
  - right. subst x0. apply Nat.eqb_neq in Hid. auto.
Qed.

(** A username stays taken for as long as its holder is flagged online, also
    once the holder was last seen a minute ago or more and [getOnlineUsers] no
    longer lists them. *)
Theorem unlisted_holder_still_blocks
        (sid : string) (now : Millis) (u : User) (db : Db) :
  unique_ids (users db) ->
  In u (users db) ->
  isOnline u = true ->
  (now - lastSeen u >= ONLINE_WINDOW_MS)%Z ->
  (forall o, In o (getOnlineUsers now db) -> ou_id o <> _id u) /\
  createUser (username u) sid now db
  = (Err "Username is already taken by an online user", db).
Proof.
  intros Hu Hin Hon Hold. split.
  - intros o Ho Hid.
    assert (Hlisted : exists o, In o (getOnlineUsers now db) /\ ou_id o = _id u) by eauto.
    apply (listed_online now u db Hu Hin) in Hlisted. lia.
  - unfold createUser. eapply mutation_Err. apply createUser_taken. eauto.
Qed.

Lemma unlisted_holder_still_blocks_witness :
  (forall o, In o (getOnlineUsers 100000%Z lobby) -> ou_id o <> 4) /\
  createUser "dave" "s9" 100000%Z lobby
  = (Err "Username is already taken by an online user", lobby).
Proof.
  apply (unlisted_holder_still_blocks "s9" 100000%Z dave lobby).
  - distinct_ids.
  - now left.
  - reflexivity.
  - unfold ONLINE_WINDOW_MS. cbn. lia.
Defined.

Lemma distinct_with_last {K} (keys : list K) (last : K)
      (Hdistinct : NoDup keys) (Hfresh : ~ In last keys) :
  NoDup (keys ++ [last]).
Proof.
  induction keys as [|k keys IH]; cbn [app]; [repeat constructor; intros []|].
  inversion Hdistinct as [|? ? Hk Hrest]; subst. constructor.
  - intros Hin. apply in_app_or in Hin. destruct Hin as [Hin|[<-|[]]]; [tauto|].
    apply Hfresh. now left.
  - apply IH; [assumption|]. intros Hin. apply Hfresh. now right.
Qed.

(** [createUser] keeps sessions apart: when no two user rows share a
    session, no two do after a call that returned an id, and the call added a
    row only if the session had none. *)
Theorem createUser_keeps_sessions_distinct
        (n sid : string) (now : Millis) (db : Db) (i : Id) (db' : Db) :
  NoDup (map sessionId (users db)) ->
  createUser n sid now db = (Ok i, db') ->
  NoDup (map sessionId (users db')) /\
  (List.length (users db')
   = match getCurrentUser sid db with
     | Some _ => List.length (users db)
     | None => S (List.length (users db))
     end).
Proof.
  intros Hnd Hrun. destruct (createUser_Ok n sid now db i db' Hrun) as [_ [Hres|Hnew]].
  - destruct Hres as (s & Hs & -> & ->). rewrite Hs. cbn [users]. unfold patched. split.
    + rewrite map_map.
      rewrite (map_ext _ sessionId); [assumption|].
      intros x. now destruct (has_id (_id s) x).
    + apply length_map.
  - destruct Hnew as (Hnone & -> & ->). rewrite Hnone. cbn [users]. split.
    + rewrite map_app. cbn [map].
      apply distinct_with_last; [assumption|].
      intros Hin. apply in_map_iff in Hin. destruct Hin as [x [Hx Hin]].
      unfold getCurrentUser in Hnone.
      assert (Hno := find_none _ _ Hnone x Hin). cbn in Hno.
      rewrite Hx, String.eqb_refl in Hno. discriminate.
    + rewrite length_app. cbn [List.length]. lia.
Qed.

Lemma createUser_keeps_sessions_distinct_witness :
  NoDup (map sessionId (users (snd (createUser "carl" "s3" 5000%Z sample)))).
Proof.
  apply (createUser_keeps_sessions_distinct "carl" "s3" 5000%Z sample 3
           (snd (createUser "carl" "s3" 5000%Z sample))).
  - cbn. repeat constructor; cbn; intuition discriminate.
  - reflexivity.
Defined.

(** [createUser] keeps online usernames apart: when no two rows flagged
    online share a username, none do after a call that returned an id. *)
Theorem createUser_keeps_online_names_distinct
        (n sid : string) (now : Millis) (db : Db) (i : Id) (db' : Db) :
  online_names_distinct db ->
  createUser n sid now db = (Ok i, db') ->
  online_names_distinct db'.
Proof.
  intros Hinv Hrun.
  destruct (createUser_Ok n sid now db i db' Hrun) as [Hfree [Hres|Hnew]].
  - destruct Hres as (s & Hs & -> & ->). intros a b Ha Hb Hona Honb Hname.
    cbn [users] in Ha, Hb.
    apply in_patched in Ha. apply in_patched in Hb.
    destruct Ha as [(a0 & Ha0 & Hida & ->)|[Ha Hida]],
             Hb as [(b0 & Hb0 & Hidb & ->)|[Hb Hidb]].
    + cbn -[_id]. unfold _id, User_Doc in *. cbn. congruence.
    + exfalso. apply (not_held_online n (users db) b Hfree Hb Honb).
      now rewrite <- Hname.
    + exfalso. apply (not_held_online n (users db) a Hfree Ha Hona).
      now rewrite Hname.
    + now apply Hinv.
  - destruct Hnew as (Hnone & -> & ->). intros a b Ha Hb Hona Honb Hname.
    cbn [users] in Ha, Hb.
    apply in_app_or in Ha. apply in_app_or in Hb.
    destruct Ha as [Ha|[<-|[]]], Hb as [Hb|[<-|[]]].
    + now apply Hinv.
    + exfalso. apply (not_held_online n (users db) a Hfree Ha Hona). exact Hname.
    + exfalso. apply (not_held_online n (users db) b Hfree Hb Honb). now rewrite <- Hname.
    + reflexivity.
Qed.

Lemma sample_online_names_distinct : online_names_distinct sample.
Proof.
  intros a b [<-|[<-|[<-|[]]]] [<-|[<-|[<-|[]]]]; cbn; intros; congruence.
Qed.

Lemma createUser_keeps_online_names_distinct_witness :
  online_names_distinct (snd (createUser "carol" "s9" 5000%Z sample)).
Proof.
  apply (createUser_keeps_online_names_distinct "carol" "s9" 5000%Z sample 100
           (snd (createUser "carol" "s9" 5000%Z sample)) sample_online_names_distinct).
  reflexivity.
Defined.

(** ** [updateOnlineStatus] *)

Lemma updateOnlineStatus_known (uid : Id) (b : bool) (now : Millis) (db : Db) :
  existsb (has_id uid) (users db) = true ->
  updateOnlineStatus uid b now db
  = (Ok tt,
     mkDb (patched uid (refreshed b now) (users db))
          (messages db) (groupMembers db) (groups db) (activeChats db)
          (typingIndicators db) (scheduled db) (nextId db)).
Proof.
  intros Hex. unfold updateOnlineStatus. apply mutation_Ok.
  unfold db_patch. cbn [rows set_rows usersT]. now rewrite Hex.
Qed.

Lemma updateOnlineStatus_Ok (uid : Id) (b : bool) (now : Millis) (db db' : Db) :
  updateOnlineStatus uid b now db = (Ok tt, db') ->
  existsb (has_id uid) (users db) = true /\
  users db' = patched uid (refreshed b now) (users db) /\
  scheduled db' = scheduled db.
Proof.
  destruct (existsb (has_id uid) (users db)) eqn:Hex.
  - rewrite (updateOnlineStatus_known uid b now db Hex).
    intros Heq. injection Heq as <-. repeat split.
  - unfold updateOnlineStatus, mutation, db_patch. cbn [rows usersT].
    rewrite Hex. discriminate.
Qed.

(** A status update for an id that has no user document fails and writes
    nothing: it does not create the user. *)
Theorem heartbeat_unknown_user (uid : Id) (b : bool) (now : Millis) (db : Db) :
  db_get usersT uid db = (Ok None, db) ->
  updateOnlineStatus uid b now db = (Err "Update on nonexistent document ID", db).
Proof.
  intros Hget. unfold db_get in Hget. injection Hget as Hfind. cbn [rows usersT] in Hfind.
  unfold updateOnlineStatus. eapply mutation_Err.
  unfold db_patch. cbn [rows usersT].
  destruct (existsb (has_id uid) (users db)) eqn:Hex; [|reflexivity].
  apply existsb_exists in Hex. destruct Hex as [x [Hin Hx]].
  now rewrite (find_none _ _ Hfind x Hin) in Hx.
Qed.

Lemma heartbeat_unknown_user_witness :
  updateOnlineStatus 9 true 7000%Z sample = (Err "Update on nonexistent document ID", sample).
Proof. apply (heartbeat_unknown_user 9 true 7000%Z sample). reflexivity. Defined.

(** [updateOnlineStatus] makes no username check: flagging a user online
    while another user flagged online has the same username leaves two online
    rows with one username. *)
Theorem heartbeat_ignores_names (now : Millis) (u v : User) (db : Db) :
  In u (users db) ->
  In v (users db) ->
  _id u <> _id v ->
  username u = username v ->
  isOnline u = true ->
  exists db',
    updateOnlineStatus (_id v) true now db = (Ok tt, db') /\
    ~ online_names_distinct db'.
Proof.
  intros Hu Hv Hne Hname Hon.
  assert (Hex : existsb (has_id (_id v)) (users db) = true).
  { apply existsb_exists. exists v. split; [assumption | apply Nat.eqb_refl]. }
  eexists. split; [apply (updateOnlineStatus_known (_id v) true now db Hex)|].
  intros Hinv. apply Hne.
  apply (Hinv u (refreshed true now v)); cbn [users]; unfold patched; auto.
  - apply in_map_iff. exists u. split; [|assumption].
    unfold has_id. apply Nat.eqb_neq in Hne. now rewrite Hne.
  - apply in_map_iff. exists v. split; [|assumption].
    unfold has_id. now rewrite Nat.eqb_refl.
Qed.

(** Carol went offline and Cara's session then took her name. *)
Lemma heartbeat_ignores_names_witness :
  let db := mkDb [carol; mkUser 7 "carol" "s7" true 2000%Z] [] [] [] [] [] [] 100 in
  online_names_distinct db /\
  exists db',
    updateOnlineStatus 3 true 3000%Z db = (Ok tt, db') /\ ~ online_names_distinct db'.
Proof.
  split.
  - intros a b [<-|[<-|[]]] [<-|[<-|[]]]; cbn; intros; congruence.
  - apply (heartbeat_ignores_names 3000%Z (mkUser 7 "carol" "s7" true 2000%Z) carol).
    + right. now left.
    + now left.
    + discriminate.
    + reflexivity.
    + reflexivity.
Defined.

(** After a status update that flagged the user online, [getOnlineUsers]
    lists the user at every time from the update until a minute after it;
    after one that flagged the user offline it lists the user at no time. *)
Theorem heartbeat_then_listed (uid : Id) (b : bool) (now : Millis) (db db' : Db) :
  updateOnlineStatus uid b now db = (Ok tt, db') ->
  (b = true ->
   forall t, (now <= t < now + ONLINE_WINDOW_MS)%Z ->
     exists o, In o (getOnlineUsers t db') /\ ou_id o = uid /\ ou_lastSeen o = now) /\
  (b = false ->
   forall t o, In o (getOnlineUsers t db') -> ou_id o <> uid).
Proof.
  intros Hrun. destruct (updateOnlineStatus_Ok uid b now db db' Hrun) as (Hex & Husers & _).
  split.
  - intros -> t Ht. apply existsb_exists in Hex. destruct Hex as [x [Hin Hx]].
    exists (mkOnlineUser uid (username x) true now). split; [|split; reflexivity].
    unfold getOnlineUsers. apply in_map_iff. exists (refreshed true now x). split.
    + cbn. apply Nat.eqb_eq in Hx. now rewrite <- Hx.
    + apply filter_In. split.
      * rewrite Husers. unfold patched. apply in_map_iff. exists x.
        split; [now rewrite Hx | assumption].
      * cbn. apply Z.gtb_lt. lia.
  - intros -> t o Ho Hid. unfold getOnlineUsers in Ho.
    apply in_map_iff in Ho. destruct Ho as [x [<- Hx]]. cbn [ou_id] in Hid.
    apply filter_In in Hx. destruct Hx as [Hx Hp]. rewrite Husers in Hx.
    apply in_patched in Hx. destruct Hx as [(x0 & _ & _ & ->)|[_ Hne]].
    + cbn in Hp. discriminate.
    + contradiction.
Qed.

Lemma heartbeat_then_listed_witness :
  exists o,
    In o (getOnlineUsers 60000%Z (snd (updateOnlineStatus 3 true 7000%Z sample))) /\
    ou_id o = 3 /\ ou_lastSeen o = 7000%Z.
Proof.
  destruct (heartbeat_then_listed 3 true 7000%Z sample
              (snd (updateOnlineStatus 3 true 7000%Z sample)) eq_refl) as [Hon _].
  apply (Hon eq_refl 60000%Z). unfold ONLINE_WINDOW_MS. lia.
Defined.

(** A status update, whichever flag it sets, keeps the sweep away from the
    user for five minutes: no sweep up to 300000 ms after the update schedules
    the user's deletion. *)
Theorem heartbeat_postpones_sweep (uid : Id) (b : bool) (now t : Millis) (db db' : Db) :
  updateOnlineStatus uid b now db = (Ok tt, db') ->
  (t <= now + IDLE_THRESHOLD_MS)%Z ->
  exists db'' jobs,
    cleanupOfflineUsers t db' = (Ok tt, db'') /\
    scheduled db'' = scheduled db ++ jobs /\
    forall j, In j jobs -> target j <> internal_users__deleteUserAndData uid.
Proof.
  intros Hrun Ht. destruct (updateOnlineStatus_Ok uid b now db db' Hrun) as (_ & Husers & Hsched).
  eexists _, _. split; [apply cleanupOfflineUsers_run|].
  cbn [scheduled]. rewrite Hsched. split; [reflexivity|].
  intros j Hj Htarget. apply in_map_iff in Hj. destruct Hj as [x [<- Hx]].
  cbn [deletion_of target] in Htarget. injection Htarget as Hid.
  apply filter_In in Hx. destruct Hx as [Hx Hidle]. rewrite Husers in Hx.
  apply in_patched in Hx. destruct Hx as [(x0 & _ & _ & ->)|[_ Hne]].
  - cbn in Hidle. apply Z.ltb_lt in Hidle. lia.
  - contradiction.
Qed.

Lemma heartbeat_postpones_sweep_witness :
  exists db'' jobs,
    cleanupOfflineUsers 300000%Z (snd (updateOnlineStatus 3 false 0%Z sample)) = (Ok tt, db'') /\
    scheduled db'' = [] ++ jobs /\
    forall j, In j jobs -> target j <> internal_users__deleteUserAndData 3.
Proof.
  apply (heartbeat_postpones_sweep 3 false 0%Z 300000%Z sample
           (snd (updateOnlineStatus 3 false 0%Z sample)) eq_refl).
  unfold IDLE_THRESHOLD_MS. lia.
Defined.

(** ** The sweep and the deletions it schedules *)

(** The sweep keeps no record of whom it scheduled: a second sweep before the
    scheduled deletions ran schedules every one of them again. *)
Theorem sweep_again_schedules_again (now : Millis) (db : Db) :
  exists db1 db2 jobs,
    cleanupOfflineUsers now db = (Ok tt, db1) /\
    cleanupOfflineUsers now db1 = (Ok tt, db2) /\
    jobs = map deletion_of (filter (idle_at now) (users db)) /\
    scheduled db1 = scheduled db ++ jobs /\
    scheduled db2 = scheduled db ++ jobs ++ jobs /\
    users db2 = users db.
Proof.
  eexists _, _, _. split; [apply cleanupOfflineUsers_run|].
  split; [apply cleanupOfflineUsers_run|].
  cbn [users scheduled]. split; [reflexivity|]. split; [reflexivity|].
  split; [now rewrite <- app_assoc | reflexivity].
Qed.

Lemma filter_out_one_more {A} (key : A -> Id) (a : Id) (ids : list Id) (l : list A) :
  filter (fun d => negb (one_of ids (key d))) (filter (fun d => negb (Nat.eqb (key d) a)) l)
  = filter (fun d => negb (one_of (a :: ids) (key d))) l.
Proof.
  rewrite filter_twice. apply filter_ext. intros d.
  unfold one_of. cbn [existsb]. now rewrite negb_orb.
Qed.

Lemma run_jobs_app (js1 js2 : list Job) (db : Db) :
  run_jobs (js1 ++ js2) db
  = (fst (run_jobs js1 db) ++ fst (run_jobs js2 (snd (run_jobs js1 db))),
     snd (run_jobs js2 (snd (run_jobs js1 db)))).
Proof.
  revert db. induction js1 as [|j js1 IH]; intros db; cbn [app run_jobs].
  - cbn [fst snd app]. now destruct (run_jobs js2 db).
  - destruct (run_job j db) as [r db1]. rewrite IH.
    destruct (run_jobs js1 db1) as [rs1 db2]. cbn [fst snd].
    now destruct (run_jobs js2 db2).
Qed.

(** Deleting, one after the other, users the store knows. *)
Lemma run_deletions_known (us : list User) :
  forall db,
    wf db ->
    NoDup (map _id us) ->
    (forall u, In u us -> In (_id u) (map _id (users db))) ->
    exists db',
      run_jobs (map deletion_of us) db = (map (fun _ => Ok tt) us, db') /\
      wf db' /\
      users db' = remove_ids (map _id us) (users db) /\
      messages db' = filter (fun m => negb (one_of (map _id us) (senderId m))) (messages db) /\
      groupMembers db'
      = filter (fun m => negb (one_of (map _id us) (userId m))) (groupMembers db) /\
      activeChats db'
      = filter (fun c => negb (one_of (map _id us) (userId c))) (activeChats db) /\
      typingIndicators db'
      = filter (fun t => negb (one_of (map _id us) (userId t))) (typingIndicators db) /\
      map _id (groups db') = map _id (groups db) /\
      scheduled db' = scheduled db.
Proof.
  induction us as [|u us IH]; intros db Hwf Hnd Hin.
  - exists db. cbn. unfold remove_ids, one_of. cbn. rewrite !filter_all.
    split; [reflexivity|]. split; [assumption|]. repeat split.
  - inversion Hnd as [|? ? Hnotin Hnd']; subst.
    assert (Hex : existsb (has_id (_id u)) (users db) = true)
      by (apply existsb_has_id, Hin; now left).
    assert (Hrun : _deleteUserAndData (_id u) db = (Ok tt, erased (_id u) db)).
    { unfold _deleteUserAndData, internalMutation. apply mutation_Ok.
      now apply handler_present. }
    destruct (IH (erased (_id u) db)) as (db' & Hjobs & Hwf' & Hus & Hms & Hgm & Hac & Hti & Hg & Hs).
    + now apply erased_wf.
    + assumption.
    + intros x Hx. unfold erased. cbn [users].
      assert (Hx0 : In (_id x) (map _id (users db))) by (apply Hin; now right).
      apply in_map_iff in Hx0. destruct Hx0 as [d [Hd Hdin]].
      apply in_map_iff. exists d. split; [assumption|].
      apply filter_In. split; [assumption|].
      unfold has_id. rewrite Hd. apply negb_true_iff, Nat.eqb_neq.
      intros Heq. apply Hnotin. rewrite <- Heq. now apply in_map.
    + exists db'. cbn [map run_jobs]. unfold run_job at 1. cbn [deletion_of target].
      rewrite Hrun, Hjobs. split; [reflexivity|]. split; [assumption|].
      unfold erased in Hus, Hms, Hgm, Hac, Hti, Hg, Hs.
      cbn [users messages groupMembers groups activeChats typingIndicators scheduled]
        in Hus, Hms, Hgm, Hac, Hti, Hg, Hs.
      rewrite Hus, Hms, Hgm, Hac, Hti, Hg, Hs.
      unfold not_sent_by, not_owned_by.
      rewrite remove_ids_cons, !filter_out_one_more, left_groups_ids.
      repeat split.
Qed.

(** Deleting, one after the other, users the store does not know. *)
Lemma run_deletions_unknown (us : list User) (db : Db) :
  wf db ->
  (forall u, In u us -> existsb (has_id (_id u)) (users db) = false) ->
  run_jobs (map deletion_of us) db
  = (map (fun _ => Err "Delete on nonexistent document ID") us, db).
Proof.
  intros Hwf. induction us as [|u us IH]; intros Habsent; [reflexivity|].
  cbn [map run_jobs]. unfold run_job at 1. cbn [deletion_of target].
  unfold _deleteUserAndData, internalMutation.
  rewrite (mutation_Err _ db _ _
             (handler_absent (_id u) db Hwf (Habsent u (or_introl eq_refl)))).
  rewrite IH; [reflexivity|]. intros x Hx. apply Habsent. now right.
Qed.

(** A sweep followed by the deletions it scheduled, run one after the other:
    every deletion succeeds; the users left are those last seen within five
    minutes, and the messages, memberships, active chats and typing
    indicators left are those of the users left. *)
Theorem sweep_then_deletions (now : Millis) (db : Db) :
  wf db ->
  exists db1 jobs db2,
    cleanupOfflineUsers now db = (Ok tt, db1) /\
    scheduled db1 = scheduled db ++ jobs /\
    run_jobs jobs db1 = (map (fun _ => Ok tt) jobs, db2) /\
    users db2 = filter (fun u => negb (idle_at now u)) (users db) /\
    (forall m, In m (messages db2) <->
               In m (messages db) /\
               forall u, In u (users db) -> _id u = senderId m -> idle_at now u = false) /\
    (forall m, In m (groupMembers db2) <->
               In m (groupMembers db) /\
               forall u, In u (users db) -> _id u = userId m -> idle_at now u = false) /\
    (forall c, In c (activeChats db2) <->
               In c (activeChats db) /\
               forall u, In u (users db) -> _id u = userId c -> idle_at now u = false) /\
    (forall t, In t (typingIndicators db2) <->
               In t (typingIndicators db) /\
               forall u, In u (users db) -> _id u = userId t -> idle_at now u = false).
Proof.
  intros Hwf. set (idle := filter (idle_at now) (users db)).
  assert (Hwf1 : wf (snd (cleanupOfflineUsers now db))).
  { rewrite cleanupOfflineUsers_run. cbn [snd]. destruct Hwf. split; assumption. }
  rewrite cleanupOfflineUsers_run in Hwf1. cbn [snd] in Hwf1.
  destruct (run_deletions_known idle _ Hwf1)
    as (db2 & Hjobs & _ & Hus & Hms & Hgm & Hac & Hti & _).
  { apply NoDup_map_filter. apply (wf_users Hwf). }
  { intros u Hu. cbn [users]. apply in_map. unfold idle in Hu. apply filter_In in Hu. tauto. }
  cbn [users messages groupMembers activeChats typingIndicators] in Hus, Hms, Hgm, Hac, Hti.
  assert (Hone : forall i,
            negb (one_of (map _id idle) i) = true <->
            forall u, In u (users db) -> _id u = i -> idle_at now u = false).
  { intros i. unfold one_of. rewrite negb_true_iff. split.
    - intros Hnot u Hu Hid. apply not_true_is_false. intros Hidle.
      assert (Hex : existsb (Nat.eqb i) (map _id idle) = true).
      { apply existsb_ids. rewrite <- Hid. apply in_map. apply filter_In. tauto. }
      congruence.
    - intros Hall. apply not_true_is_false. intros Hex. apply existsb_ids in Hex.
      apply in_map_iff in Hex. destruct Hex as [u [Hid Hu]].
      apply filter_In in Hu. destruct Hu as [Hu Hidle].
      rewrite (Hall u Hu Hid) in Hidle. discriminate. }
  exists (snd (cleanupOfflineUsers now db)), (map deletion_of idle), db2.
  rewrite cleanupOfflineUsers_run. cbn [snd scheduled].
  split; [reflexivity|]. split; [reflexivity|].
  split; [rewrite Hjobs; now rewrite map_map|].
  split; [rewrite Hus; apply (remove_ids_filter _ _ (wf_users Hwf))|].
  assert (Hkept : forall {A} (key : A -> Id) (l : list A) (x : A),
            In x (filter (fun d => negb (one_of (map _id idle) (key d))) l) <->
            In x l /\
            forall u, In u (users db) -> _id u = key x -> idle_at now u = false).
  { intros A key l x. rewrite filter_In. now rewrite Hone. }
  rewrite Hms, Hgm, Hac, Hti.
  split; [intros m; apply (Hkept _ senderId)|].
  split; [intros m; apply (Hkept _ member_userId)|].
  split; [intros c; apply (Hkept _ chat_userId)|].
  intros t; apply (Hkept _ typing_userId).
Qed.

(** In the lobby only Frank has been idle for five minutes. *)
Lemma sweep_then_deletions_witness :
  exists db1 jobs db2,
    cleanupOfflineUsers 100000%Z lobby = (Ok tt, db1) /\
    run_jobs jobs db1 = (map (fun _ => Ok tt) jobs, db2) /\
    users db2 = [dave; erin].
Proof.
  destruct (sweep_then_deletions 100000%Z lobby)
    as (db1 & jobs & db2 & Hsweep & _ & Hrun & Husers & _).
  - split; distinct_ids.
  - exists db1, jobs, db2. split; [exact Hsweep|]. split; [exact Hrun|]. exact Husers.
Defined.

(** Two sweeps before any scheduled deletion ran, then all the deletions: of
    the two deletions scheduled for each idle user the first succeeds and the
    second fails, and the users left are those a single sweep would have
    left. *)
Theorem repeated_sweep_is_harmless (now : Millis) (db : Db) :
  wf db ->
  exists db1 db2 jobs db3,
    cleanupOfflineUsers now db = (Ok tt, db1) /\
    cleanupOfflineUsers now db1 = (Ok tt, db2) /\
    scheduled db2 = scheduled db ++ jobs ++ jobs /\
    run_jobs (jobs ++ jobs) db2
    = (map (fun _ => Ok tt) jobs
       ++ map (fun _ => Err "Delete on nonexistent document ID") jobs, db3) /\
    users db3 = filter (fun u => negb (idle_at now u)) (users db).
Proof.
  intros Hwf.
  destruct (sweep_again_schedules_again now db)
    as (db1 & db2 & jobs & Hs1 & Hs2 & -> & _ & Hsched & Husers).
  set (idle := filter (idle_at now) (users db)).
  assert (Hwf2 : wf db2).
  { rewrite cleanupOfflineUsers_run in Hs1. injection Hs1 as <-.
    rewrite cleanupOfflineUsers_run in Hs2. injection Hs2 as <-.
    destruct Hwf. split; assumption. }
  destruct (run_deletions_known idle db2 Hwf2) as (db3 & Hjobs & Hwf3 & Hus & _).
  { apply NoDup_map_filter. apply (wf_users Hwf). }
  { intros u Hu. rewrite Husers. apply in_map. unfold idle in Hu.
    apply filter_In in Hu. tauto. }
  assert (Hgone : forall u, In u idle -> existsb (has_id (_id u)) (users db3) = false).
  { intros u Hu. apply not_true_is_false. intros Hex.
    apply existsb_exists in Hex. destruct Hex as [d [Hd Hid]].
    rewrite Hus in Hd. apply filter_In in Hd. destruct Hd as [_ Hkept].
    apply Nat.eqb_eq in Hid. apply negb_true_iff in Hkept.
    assert (Hin : existsb (Nat.eqb (_id d)) (map _id idle) = true)
      by (apply existsb_ids; rewrite Hid; now apply in_map).
    congruence. }
  exists db1, db2, (map deletion_of idle), db3.
  split; [assumption|]. split; [assumption|]. split; [assumption|].
  rewrite run_jobs_app, Hjobs. cbn [fst snd].
  rewrite (run_deletions_unknown idle db3 Hwf3 Hgone). cbn [fst snd].
  rewrite !map_map. split; [reflexivity|].
  rewrite Hus, Husers. apply (remove_ids_filter _ _ (wf_users Hwf)).
Qed.

Lemma repeated_sweep_is_harmless_witness :
  exists db2 jobs db3,
    scheduled db2 = jobs ++ jobs /\
    run_jobs (jobs ++ jobs) db2
    = (map (fun _ => Ok tt) jobs
       ++ map (fun _ => Err "Delete on nonexistent document ID") jobs, db3) /\
    users db3 = [dave; erin].
Proof.
  destruct (repeated_sweep_is_harmless 100000%Z lobby)
    as (db1 & db2 & jobs & db3 & _ & _ & Hsched & Hrun & Husers).
  - split; distinct_ids.
  - exists db2, jobs, db3. split; [exact Hsched|]. split; [exact Hrun|]. exact Husers.
Defined.

(** Logging out does not delete inline: the user is still there when
    [logoutUser] returns, and gone once the scheduled deletion has run.  Had
    the user logged out twice, the second scheduled deletion fails and changes
    nothing. *)
Theorem logout_then_deletion (uid : Id) (u : User) (db : Db) :
  wf db ->
  db_get usersT uid db = (Ok (Some u), db) ->
  exists db1 job db2,
    logoutUser uid db = (Ok tt, db1) /\
    scheduled db1 = scheduled db ++ [job] /\
    db_get usersT uid db1 = (Ok (Some u), db1) /\
    run_jobs [job] db1 = ([Ok tt], db2) /\
    db_get usersT uid db2 = (Ok None, db2) /\
    run_jobs [job; job] db1 = ([Ok tt; Err "Delete on nonexistent document ID"], db2).
Proof.
  intros Hwf Hget.
  set (db1 := mkDb (users db) (messages db) (groupMembers db) (groups db) (activeChats db)
                   (typingIndicators db)
                   (scheduled db ++ [mkJob 0 (internal_users__deleteUserAndData uid)])
                   (nextId db)).
  assert (Hwf1 : wf db1) by (destruct Hwf; split; assumption).
  assert (Hget1 : db_get usersT uid db1 = (Ok (Some u), db1)).
  { unfold db_get in Hget |- *. cbn [rows usersT] in Hget |- *.
    injection Hget as Hfind. change (users db1) with (users db). now rewrite Hfind. }
  assert (Hrun := deleteUserAndData_run uid u db1 Hwf1 Hget1).
  assert (Hgone : existsb (has_id uid) (users (erased uid db1)) = false)
    by apply existsb_filtered_out.
  assert (Hagain : _deleteUserAndData uid (erased uid db1)
                   = (Err "Delete on nonexistent document ID", erased uid db1)).
  { unfold _deleteUserAndData, internalMutation. eapply mutation_Err.
    apply handler_absent; [now apply erased_wf | assumption]. }
  exists db1, (mkJob 0 (internal_users__deleteUserAndData uid)), (erased uid db1).
  split; [reflexivity|]. split; [reflexivity|]. split; [exact Hget1|].
  cbn [run_jobs]. unfold run_job. cbn [target]. rewrite Hrun, Hagain.
  split; [reflexivity|]. split; [|reflexivity].
  unfold db_get, erased. cbn [rows usersT users]. now rewrite find_filtered_out.
Qed.

Lemma logout_then_deletion_witness :
  exists db1 job db2,
    logoutUser 2 sample = (Ok tt, db1) /\
    run_jobs [job; job] db1 = ([Ok tt; Err "Delete on nonexistent document ID"], db2) /\
    db_get usersT 2 db2 = (Ok None, db2).
Proof.
  destruct (logout_then_deletion 2 bob sample sample_wf eq_refl)
    as (db1 & job & db2 & Hout & _ & _ & _ & Hgone & Htwice).
  exists db1, job, db2. split; [exact Hout|]. split; [exact Htwice | exact Hgone].
Defined.

(** ** What a deletion leaves alone *)

Lemma other_memberships (u v : Id) (l : list GroupMember) :
  u <> v ->
  filter (fun m => Nat.eqb (userId m) v) (filter (not_owned_by u) l)
  = filter (fun m => Nat.eqb (userId m) v) l.
Proof.
  intros Hne. rewrite filter_twice. apply filter_ext. intros m.
  unfold not_owned_by. destruct (Nat.eqb (userId m) v) eqn:Hv; [|apply andb_false_r].
  apply Nat.eqb_eq in Hv. rewrite andb_true_r. apply negb_true_iff, Nat.eqb_neq. congruence.
Qed.

Lemma filter_swap {A} (p q : A -> bool) (l : list A) :
  filter p (filter q l) = filter q (filter p l).
Proof. rewrite !filter_twice. apply filter_ext. intros a. apply andb_comm. Qed.

Lemma left_group_twice (ms1 ms2 : list GroupMember) (g : Group) :
  left_group ms1 (left_group ms2 g) = left_group ms2 (left_group ms1 g).
Proof.
  assert (Hsame : forall ms ms', existsb (fun m => has_id (member_groupId m) (left_group ms' g)) ms
                                 = existsb (fun m => has_id (member_groupId m) g) ms).
  { intros ms ms'. apply existsb_pointwise. intros m. unfold has_id.
    now rewrite left_group_id. }
  unfold left_group at 1 3. rewrite !Hsame.
  unfold left_group.
  destruct (existsb (fun m => has_id (member_groupId m) g) ms1),
           (existsb (fun m => has_id (member_groupId m) g) ms2); reflexivity.
Qed.

Lemma has_row_in_rows (uid : Id) (db db' : Db) (g g' : Group) :
  memberships_of uid db' = memberships_of uid db ->
  _id g' = _id g ->
  has_row_in uid db' g' = has_row_in uid db g.
Proof. unfold has_row_in. now intros -> ->. Qed.

(** The deletions of two different users the store knows can run in either
    order: both orders succeed and leave the same store.  In it a group in
    which both users had a membership row holds its count taken twice
    through [Math.max(0, count - 1)], a group in which one of them had a row
    holds it taken once, and any other group holds its count as it was; an
    integer count up to 2^53 of a group both were in ends two lower, floored
    at zero. *)
Theorem deletions_commute (u v : Id) (ru rv : User) (db : Db) :
  wf db ->
  u <> v ->
  db_get usersT u db = (Ok (Some ru), db) ->
  db_get usersT v db = (Ok (Some rv), db) ->
  exists du dv final,
    _deleteUserAndData u db = (Ok tt, du) /\
    _deleteUserAndData v du = (Ok tt, final) /\
    _deleteUserAndData v db = (Ok tt, dv) /\
    _deleteUserAndData u dv = (Ok tt, final) /\
    forall g, In g (groups db) ->
      exists g',
        db_get groupsT (_id g) final = (Ok (Some g'), final) /\
        name g' = name g /\
        memberCount g'
        = match has_row_in u db g, has_row_in v db g with
          | true, true =>
              Math_max [js_number 0;
                        minus (Math_max [js_number 0; minus (memberCount g) (js_number 1)])
                              (js_number 1)]
          | true, false | false, true =>
              Math_max [js_number 0; minus (memberCount g) (js_number 1)]
          | false, false => memberCount g
          end /\
        (forall n,
           has_row_in u db g = true -> has_row_in v db g = true ->
           (0 <= n <= 2 ^ 53)%Z -> memberCount g = js_number n ->
           memberCount g' = js_number (Z.max 0 (n - 2))).
Proof.
  intros Hwf Hne Hu Hv.
  assert (Hstill : forall a b, a <> b ->
            existsb (has_id b) (users db) = true ->
            existsb (has_id b) (users (erased a db)) = true).
  { intros a b Hab Hex. apply existsb_exists in Hex. destruct Hex as [x [Hin Hx]].
    apply existsb_exists. exists x. split; [|assumption].
    unfold erased. cbn [users]. apply filter_In. split; [assumption|].
    unfold has_id in *. apply Nat.eqb_eq in Hx. rewrite Hx.
    apply negb_true_iff, Nat.eqb_neq. congruence. }
  assert (Hrun : forall a s, wf s -> existsb (has_id a) (users s) = true ->
            _deleteUserAndData a s = (Ok tt, erased a s)).
  { intros a s Hs Hex. unfold _deleteUserAndData, internalMutation.
    apply mutation_Ok. now apply handler_present. }
  destruct (get_present _ _ _ _ Hu) as [Hexu _].
  destruct (get_present _ _ _ _ Hv) as [Hexv _].
  cbn [rows usersT] in Hexu, Hexv.
  assert (Hrows : memberships_of v (erased u db) = memberships_of v db).
  { unfold memberships_of, erased. cbn [groupMembers]. now apply other_memberships. }
  exists (erased u db), (erased v db), (erased v (erased u db)).
  split; [now apply Hrun|].
  split; [apply Hrun; [now apply erased_wf | now apply Hstill]|].
  split; [now apply Hrun|].
  split.
  { rewrite Hrun; [|now apply erased_wf | apply Hstill; [congruence | assumption]].
    f_equal. unfold erased, memberships_of.
    cbn [users messages groupMembers groups activeChats typingIndicators scheduled nextId].
    rewrite (other_memberships u v) by assumption.
    rewrite (other_memberships v u) by congruence.
    f_equal; try apply filter_swap.
    rewrite !map_map. apply map_ext. intros g. apply left_group_twice. }
  intros g Hg.
  exists (left_group (memberships_of v (erased u db)) (left_group (memberships_of u db) g)).
  assert (Hcount :
            memberCount (left_group (memberships_of v (erased u db))
                                    (left_group (memberships_of u db) g))
            = match has_row_in u db g, has_row_in v db g with
              | true, true =>
                  Math_max [js_number 0;
                            minus (Math_max [js_number 0; minus (memberCount g) (js_number 1)])
                                  (js_number 1)]
              | true, false | false, true =>
                  Math_max [js_number 0; minus (memberCount g) (js_number 1)]
              | false, false => memberCount g
              end).
  { rewrite (left_group_explicit v (erased u db)).
    rewrite (has_row_in_rows v db (erased u db) g _ Hrows (left_group_id _ g)).
    rewrite (left_group_explicit u db).
    destruct (has_row_in u db g), (has_row_in v db g); reflexivity. }
  split.
  { unfold db_get. cbn [rows groupsT].
    change (groups (erased v (erased u db)))
      with (map (left_group (memberships_of v (erased u db)))
                (map (left_group (memberships_of u db)) (groups db))).
    rewrite map_map.
    rewrite (find_mapped
               (fun x => left_group (memberships_of v (erased u db))
                                    (left_group (memberships_of u db) x))
               (groups db) g); [reflexivity| |exact (wf_groups Hwf)|exact Hg].
    intros x. now rewrite !left_group_id. }
  split; [now rewrite !left_group_name|].
  split; [exact Hcount|].
  intros n Hinu Hinv Hn Hold. rewrite Hcount, Hinu, Hinv, Hold.
  rewrite decrement_exact by lia.
  rewrite decrement_exact by lia.
  f_equal. lia.
Qed.

Lemma deletions_commute_witness :
  exists final g',
    _deleteUserAndData 2 (snd (_deleteUserAndData 1 sample)) = (Ok tt, final) /\
    _deleteUserAndData 1 (snd (_deleteUserAndData 2 sample)) = (Ok tt, final) /\
    db_get groupsT 30 final = (Ok (Some g'), final) /\
    memberCount g' = js_number 0.
Proof.
  destruct (deletions_commute 1 2 alice bob sample sample_wf) as
    (du & dv & final & H1 & H2 & H3 & H4 & Hgroups); try reflexivity; try discriminate.
  destruct (Hgroups (mkGroup 30 "general" (js_number 2)) (or_introl eq_refl))
    as (g' & Hget & _ & _ & Htwo).
  exists final, g'. rewrite H1, H3. cbn [snd].
  split; [assumption|]. split; [assumption|]. split; [exact Hget|].
  apply (Htwo 2%Z); [reflexivity | reflexivity | lia | reflexivity].
Defined.

(** A deletion adds, removes and renames no group, and leaves every group in
    which the user has no membership row exactly as it was. *)
Theorem deletion_keeps_groups (uid : Id) (u : User) (db : Db) :
  wf db ->
  db_get usersT uid db = (Ok (Some u), db) ->
  exists db',
    _deleteUserAndData uid db = (Ok tt, db') /\
    map _id (groups db') = map _id (groups db) /\
    map name (groups db') = map name (groups db) /\
    (forall g, In g (groups db) ->
       (forall m, In m (groupMembers db) -> userId m = uid -> member_groupId m <> _id g) ->
       db_get groupsT (_id g) db' = (Ok (Some g), db')).
Proof.
  intros Hwf Hget. exists (erased uid db).
  split; [now apply (deleteUserAndData_run uid u)|].
  unfold erased, db_get. cbn [rows groupsT groups].
  split; [apply left_groups_ids|].
  split.
  { rewrite map_map. apply map_ext. intros g. apply left_group_name. }
  intros g Hg Hnone.
  rewrite (get_left_group _ g (groups db) (wf_groups Hwf) Hg).
  f_equal. f_equal. f_equal. unfold left_group.
  destruct (existsb (fun m => has_id (member_groupId m) g) (memberships_of uid db)) eqn:Hex;
    [|reflexivity].
  exfalso. apply existsb_exists in Hex. destruct Hex as [m [Hm Hid]].
  apply filter_In in Hm. destruct Hm as [Hm Hown]. apply Nat.eqb_eq in Hown.
  apply (Hnone m Hm Hown). apply Nat.eqb_eq in Hid. now rewrite Hid.
Qed.

Lemma deletion_keeps_groups_witness :
  exists db',
    _deleteUserAndData 3 sample = (Ok tt, db') /\
    groups db' = groups sample.
Proof.
  destruct (deletion_keeps_groups 3 carol sample sample_wf eq_refl)
    as (db' & Hrun & _ & _ & _).
  exists db'. split; [exact Hrun|].
  vm_compute in Hrun. injection Hrun as <-. reflexivity.
Defined.

(** * The chat area *)

(** ** Trimming *)

Lemma trimStart_prefix (s : ChatArea.JsString) :
  exists pre, s = pre ++ ChatArea.trimStart s /\ forallb ChatArea.isWhiteSpace pre = true.
Proof.
  induction s as [|c s [pre [Hs Hpre]]]; [now exists []|].
  cbn [ChatArea.trimStart]. destruct (ChatArea.isWhiteSpace c) eqn:Hc.
  - exists (c :: pre). cbn [app forallb]. rewrite Hc, Hpre. now rewrite <- Hs.
  - now exists [].
Qed.

Lemma trimStart_first (s : ChatArea.JsString) (c : N) (rest : ChatArea.JsString) :
  ChatArea.trimStart s = c :: rest -> ChatArea.isWhiteSpace c = false.
Proof.
  induction s as [|a s IH]; cbn [ChatArea.trimStart]; [discriminate|].
  destruct (ChatArea.isWhiteSpace a) eqn:Ha; [assumption|].
  intros Heq. injection Heq as <- _. assumption.
Qed.

Lemma trimStart_blank (s : ChatArea.JsString) :
  forallb ChatArea.isWhiteSpace s = true -> ChatArea.trimStart s = [].
Proof.
  induction s as [|a s IH]; cbn [forallb ChatArea.trimStart]; [reflexivity|].
  intros Hall. apply andb_true_iff in Hall. destruct Hall as [Ha Hs]. now rewrite Ha, IH.
Qed.

Lemma forallb_rev {A} (p : A -> bool) (l : list A) :
  forallb p l = true -> forallb p (rev l) = true.
Proof.
  rewrite !forallb_forall. intros Hall x Hx. apply Hall. now apply in_rev.
Qed.

(** What [trim] returns is the string between a blank prefix and a blank
    suffix, and when it is not empty it neither starts nor ends with a blank. *)
Lemma trim_spec (s : ChatArea.JsString) :
  (exists pre post,
     s = pre ++ ChatArea.trim s ++ post /\
     forallb ChatArea.isWhiteSpace pre = true /\
     forallb ChatArea.isWhiteSpace post = true) /\
  (ChatArea.trim s <> [] ->
   (exists c rest, ChatArea.trim s = c :: rest /\ ChatArea.isWhiteSpace c = false) /\
   (exists body c, ChatArea.trim s = body ++ [c] /\ ChatArea.isWhiteSpace c = false)).
Proof.
  unfold ChatArea.trim, ChatArea.trimEnd.
  destruct (trimStart_prefix s) as [pre [Hs Hpre]].
  destruct (trimStart_prefix (rev (ChatArea.trimStart s))) as [post [Hr Hpost]].
  set (T := ChatArea.trimStart s) in *.
  set (U := ChatArea.trimStart (rev T)) in *.
  assert (HT : T = rev U ++ rev post).
  { rewrite <- (rev_involutive T), Hr. apply rev_app_distr. }
  split.
  - exists pre, (rev post). split; [now rewrite <- HT|].
    split; [assumption | now apply forallb_rev].
  - intros Hne. split.
    + destruct (rev U) as [|c rest] eqn:HU; [contradiction|].
      exists c, rest. split; [reflexivity|].
      apply (trimStart_first s c (rest ++ rev post)). fold T. now rewrite HT.
    + destruct U as [|c U'] eqn:HU; [contradiction|].
      exists (rev U'), c. split; [reflexivity|].
      apply (trimStart_first (rev T) c U'). exact HU.
Qed.

Lemma trim_blank (s : ChatArea.JsString) :
  ChatArea.trim s = [] <-> forallb ChatArea.isWhiteSpace s = true.
Proof.
  split.
  - intros Hempty. destruct (trim_spec s) as [(pre & post & Hs & Hpre & Hpost) _].
    rewrite Hempty in Hs. rewrite Hs. cbn [app]. rewrite forallb_app.
    now rewrite Hpre, Hpost.
  - intros Hall. unfold ChatArea.trim, ChatArea.trimEnd.
    now rewrite (trimStart_blank s Hall).
Qed.

(** ** Sending *)

(** Whatever [handleSendMessage] sends is the draft without its leading and
    trailing blanks, is not empty, neither starts nor ends with a blank, comes
    from the current user and goes to the selected chat's user and group; and
    it sends at most once. *)
Theorem sent_content_is_trimmed
        (props : ChatArea.Props) (message : ChatArea.JsString) (isTyping delivered : bool)
        (content : ChatArea.JsString) (sender : Id) (recipient grp : option Id) :
  In (ChatArea.sendMessage content sender recipient grp)
     (ChatArea.handleSendMessage props message isTyping delivered) ->
  content = ChatArea.trim message /\
  (exists pre post,
     message = pre ++ content ++ post /\
     forallb ChatArea.isWhiteSpace pre = true /\
     forallb ChatArea.isWhiteSpace post = true) /\
  (exists c rest, content = c :: rest /\ ChatArea.isWhiteSpace c = false) /\
  (exists body c, content = body ++ [c] /\ ChatArea.isWhiteSpace c = false) /\
  (exists chat,
     ChatArea.selectedChat props = Some chat /\
     sender = ChatArea.currentUserId props /\
     recipient = ChatArea.otherUserId chat /\
     grp = ChatArea.groupId chat) /\
  (exists others,
     ChatArea.handleSendMessage props message isTyping delivered
     = ChatArea.sendMessage content sender recipient grp :: others /\
     forall c s r g, ~ In (ChatArea.sendMessage c s r g) others).
Proof.
  unfold ChatArea.handleSendMessage. intros Hin.
  destruct (trim_spec message) as [Hparts Hends].
  destruct (ChatArea.trim message) as [|c0 rest0] eqn:Htrim; [contradiction|].
  destruct (ChatArea.selectedChat props) as [chat|]; [|contradiction].
  assert (Hsent : ChatArea.sendMessage content sender recipient grp
                  = ChatArea.sendMessage (c0 :: rest0) (ChatArea.currentUserId props)
                      (ChatArea.otherUserId chat) (ChatArea.groupId chat)).
  { destruct Hin as [Heq|Hin]; [now symmetry|].
    destruct delivered, isTyping; cbn in Hin;
      repeat (destruct Hin as [Hin|Hin]; [discriminate|]); contradiction. }
  injection Hsent as -> -> -> ->.
  destruct (Hends ltac:(discriminate)) as [Hfirst Hlast].
  split; [reflexivity|]. split; [exact Hparts|].
  split; [exact Hfirst|]. split; [exact Hlast|].
  split; [exists chat; repeat split|].
  eexists. split; [reflexivity|].
  intros c s r g Hother.
  destruct delivered, isTyping; cbn in Hother;
    repeat (destruct Hother as [Hother|Hother]; [discriminate|]); contradiction.
Qed.

(** A draft of a tab, "hi" and a no-break space, sent in a private chat. *)
Lemma sent_content_is_trimmed_witness :
  let chat := ChatArea.mkChat ChatArea.private "bob" "bob" (Some 2) None None in
  ChatArea.trim [9; 104; 105; 160]%N = [104; 105]%N /\
  exists pre post, [9; 104; 105; 160]%N = pre ++ [104; 105]%N ++ post.
Proof.
  intros chat.
  destruct (sent_content_is_trimmed (ChatArea.mkProps 1 (Some chat) false)
              [9; 104; 105; 160]%N true true [104; 105]%N 1 (Some 2) None)
    as (Htrim & (pre & post & Hparts & _) & _).
  - now left.
  - split; [now symmetry|]. now exists pre, post.
Defined.

(** A draft of blanks only is not sent, and nothing else happens either: the
    draft stays in the input and the typing state as it is. *)
Theorem blank_draft_is_not_sent
        (props : ChatArea.Props) (message : ChatArea.JsString) (isTyping delivered : bool) :
  forallb ChatArea.isWhiteSpace message = true ->
  ChatArea.handleSendMessage props message isTyping delivered = [].
Proof.
  intros Hblank. unfold ChatArea.handleSendMessage.
  now rewrite (proj2 (trim_blank message) Hblank).
Qed.

Lemma blank_draft_is_not_sent_witness :
  ChatArea.handleSendMessage
    (ChatArea.mkProps 1 (Some (ChatArea.mkChat ChatArea.private "bob" "bob" (Some 2) None None))
                      false)
    [32; 10; 8195; 65279]%N true true = [].
Proof. apply blank_draft_is_not_sent. reflexivity. Defined.

(** ** The typing timer *)

Lemma clear_the_one_timer (env : ChatArea.Env) :
  one_timer env ->
  match ChatArea.typingTimeoutRef env with
  | Some t => ChatArea.clearTimeout t (ChatArea.timers env)
  | None => ChatArea.timers env
  end = [].
Proof.
  intros [Hnone|(t & Hone & Href)].
  - rewrite Hnone. now destruct (ChatArea.typingTimeoutRef env).
  - rewrite Href, Hone. unfold ChatArea.clearTimeout. cbn [filter].
    now rewrite Nat.eqb_refl.
Qed.

Lemma step_keeps_one_timer (e : ChatArea.Event) (env : ChatArea.Env) :
  one_timer env -> one_timer (snd (ChatArea.step e env)).
Proof.
  intros Hone. destruct e as [props b now|t now|props b]; cbn [ChatArea.step].
  - unfold ChatArea.handleTyping.
    destruct (ChatArea.selectedChat props) as [chat|]; [|exact Hone].
    cbn [snd ChatArea.timers ChatArea.typingTimeoutRef].
    rewrite (clear_the_one_timer env Hone). right. eexists. split; reflexivity.
  - unfold ChatArea.timeout.
    destruct (find _ (ChatArea.timers env)) as [x|]; [|exact Hone].
    destruct (ChatArea.due x <=? now)%Z; [|exact Hone].
    cbn [snd]. destruct Hone as [Hnone|(t0 & Ht0 & Href)].
    + left. cbn [ChatArea.timers]. now rewrite Hnone.
    + cbn [ChatArea.timers ChatArea.typingTimeoutRef]. rewrite Ht0.
      unfold ChatArea.clearTimeout, one_timer. cbn [filter ChatArea.timers ChatArea.typingTimeoutRef].
      destruct (negb (Nat.eqb (ChatArea.timer_id t0) t)); [right; now exists t0 | now left].
  - unfold ChatArea.typingCleanup. cbn [snd].
    assert (Hcleared := clear_the_one_timer env Hone).
    destruct (ChatArea.typingTimeoutRef env) as [t|]; [|exact Hone].
    left. cbn [ChatArea.timers]. exact Hcleared.
Qed.

Lemma run_keeps_one_timer (events : list ChatArea.Event) (env : ChatArea.Env) :
  one_timer env -> one_timer (ChatArea.run events env).
Proof.
  revert env. unfold ChatArea.run.
  induction events as [|e events IH]; intros env Hone; [exact Hone|].
  cbn [fold_left]. apply IH. now apply step_keeps_one_timer.
Qed.

(** The typing timer is debounced.  Whatever happened to the component since
    it was mounted (keystrokes, timeouts, cleanups, in any order and with any
    props and state), after a keystroke at [now] in a selected chat exactly
    one timer is pending: it is due 2000 ms later and will report that typing
    stopped in that chat; no timer callback runs before then, and the one
    that runs at or after it leaves no timer pending. *)
Theorem typing_timer_is_debounced
        (events : list ChatArea.Event) (props : ChatArea.Props) (chat : ChatArea.Chat)
        (isTyping : bool) (now : Millis) :
  ChatArea.selectedChat props = Some chat ->
  exists t env',
    ChatArea.step (ChatArea.typed props isTyping now) (ChatArea.run events ChatArea.mounted)
    = (if isTyping then []
       else [ChatArea.setIsTyping true;
             ChatArea.updateTypingIndicator (ChatArea.currentUserId props)
                                            (ChatArea.id chat) true],
       env') /\
    ChatArea.timers env' = [ChatArea.mkTimer t (now + 2000)%Z (typing_stopped props chat)] /\
    ChatArea.typingTimeoutRef env' = Some t /\
    (forall t' later, (later < now + 2000)%Z ->
       ChatArea.step (ChatArea.timed_out t' later) env' = ([], env')) /\
    (forall later, (now + 2000 <= later)%Z ->
       fst (ChatArea.step (ChatArea.timed_out t later) env') = typing_stopped props chat /\
       ChatArea.timers (snd (ChatArea.step (ChatArea.timed_out t later) env')) = []).
Proof.
  intros Hchat.
  assert (Hone : one_timer (ChatArea.run events ChatArea.mounted)).
  { apply run_keeps_one_timer. now left. }
  set (env := ChatArea.run events ChatArea.mounted) in *.
  cbn [ChatArea.step]. unfold ChatArea.handleTyping. rewrite Hchat.
  rewrite (clear_the_one_timer env Hone). cbn [app].
  eexists _, _. split; [reflexivity|].
  cbn [ChatArea.timers ChatArea.typingTimeoutRef].
  split; [reflexivity|]. split; [reflexivity|]. split.
  - intros t' later Hearly. cbn [ChatArea.step]. unfold ChatArea.timeout.
    cbn [ChatArea.timers find ChatArea.timer_id].
    destruct (Nat.eqb (ChatArea.nextTimer env) t'); [|reflexivity].
    cbn [ChatArea.due].
    destruct (now + 2000 <=? later)%Z eqn:Hdue; [|reflexivity].
    apply Z.leb_le in Hdue. lia.
  - intros later Hlate. cbn [ChatArea.step]. unfold ChatArea.timeout.
    cbn [ChatArea.timers find ChatArea.timer_id]. rewrite Nat.eqb_refl.
    cbn [ChatArea.due]. apply Z.leb_le in Hlate. rewrite Hlate.
    cbn [fst snd ChatArea.fires ChatArea.timers]. unfold ChatArea.clearTimeout.
    cbn [filter ChatArea.timer_id]. rewrite Nat.eqb_refl. split; reflexivity.
Qed.

(** Three keystrokes 500 ms apart in a chat with Bob: one timer is left. *)
Lemma typing_timer_is_debounced_witness :
  let chat := ChatArea.mkChat ChatArea.private "bob" "bob" (Some 2) None None in
  let props := ChatArea.mkProps 1 (Some chat) false in
  exists t env',
    snd (ChatArea.step (ChatArea.typed props true 1000%Z)
           (ChatArea.run [ChatArea.typed props false 0%Z; ChatArea.typed props true 500%Z]
                         ChatArea.mounted)) = env' /\
    ChatArea.timers env' = [ChatArea.mkTimer t 3000%Z (typing_stopped props chat)].
Proof.
  intros chat props.
  destruct (typing_timer_is_debounced
              [ChatArea.typed props false 0%Z; ChatArea.typed props true 500%Z]
              props chat true 1000%Z eq_refl)
    as (t & env' & Hstep & Htimers & _).
  exists t, env'. split; [now rewrite Hstep | exact Htimers].
Defined.

(** * The mobile view *)

(** On the chat screen of the mobile view there is one control back to the
    chat list, the back button when a chat is selected and the floating button
    otherwise, and the chat area is rendered without a close button: nothing
    in it calls [setSelectedChat]. *)
Theorem mobile_chat_screen
        (props : MobileView.Props) (backButton floatingButton : option (list MobileView.Call))
        (chatArea : ChatArea.Props)
        (chatArea_setSelectedChat : option ChatArea.Chat -> list MobileView.Call) :
  MobileView.render props
  = MobileView.ChatScreen backButton chatArea chatArea_setSelectedChat floatingButton ->
  MobileView.showChatList props = false /\
  ChatArea.selectedChat chatArea = MobileView.selectedChat props /\
  ChatArea.closeButton chatArea = None /\
  ((backButton = Some [MobileView.setShowChatList true] /\ floatingButton = None /\
    MobileView.selectedChat props <> None)
   \/
   (backButton = None /\ floatingButton = Some [MobileView.setShowChatList true] /\
    MobileView.selectedChat props = None)).
Proof.
  unfold MobileView.render.
  destruct (MobileView.showChatList props); [discriminate|].
  intros Heq. injection Heq as <- <- _ <-.
  split; [reflexivity|]. split; [reflexivity|].
  unfold ChatArea.closeButton. cbn [ChatArea.selectedChat ChatArea.isMobile].
  destruct (MobileView.selectedChat props) as [chat|].
  - split; [reflexivity|]. left. repeat split. discriminate.
  - split; [reflexivity|]. right. repeat split.
Qed.

Lemma mobile_chat_screen_witness :
  ChatArea.closeButton
    (ChatArea.mkProps 1 (Some (ChatArea.mkChat ChatArea.private "bob" "bob" (Some 2) None None))
                      true) = None.
Proof.
  destruct (mobile_chat_screen
              (MobileView.mkProps 1
                 (Some (ChatArea.mkChat ChatArea.private "bob" "bob" (Some 2) None None)) false)
              _ _ _ _ eq_refl) as (_ & _ & Hclose & _).
  exact Hclose.
Defined.
